(** * Mouser MCP server: the dual-key API client and its domain operations

    A shallow embedding of [mouser_mcp/client.py], [mouser_mcp/api/*.py] and
    the status tools of [mouser_mcp/server.py], with the properties of the
    request dispatch rule, of input validation and of error wrapping.

    Conventions of the embedding:
    - a Python [str] is the list of its Unicode code points;
    - a Python [int] is a [Z];
    - a [dict] built by a literal is the association list of its items, in
      insertion order; the header dictionary of the HTTP session, which is
      updated by key, is a [gmap];
    - the process state (the singleton client, the upstream service and the
      requests sent so far) is threaded explicitly, and a raised exception
      is the left injection of the result. *)

From Stdlib Require Import ZArith NArith List String Ascii Bool Lia.
From Stdlib Require Import DecimalString.
From stdpp Require Import base option list gmap.

Import ListNotations.
Local Open Scope Z_scope.

(** ** Python strings *)

Module PyStr.

Abbreviation char := N (only parsing).
Abbreviation str := (list N) (only parsing).

(** A string literal of the source, as code points (ASCII literals only). *)
Definition lit (s : string) : str :=
  List.map N_of_ascii (list_ascii_of_string s).

(** [str.isspace] on one code point: the whitespace table of CPython
    ([_PyUnicode_IsWhitespace]). *)
Definition isspace (c : char) : bool :=
  (((9 <=? c) && (c <=? 13)) || ((28 <=? c) && (c <=? 32))
   || (c =? 133) || (c =? 160) || (c =? 5760)
   || ((8192 <=? c) && (c <=? 8202))
   || (c =? 8232) || (c =? 8233) || (c =? 8239) || (c =? 8287)
   || (c =? 12288))%N.

Fixpoint drop_while (p : char -> bool) (s : str) : str :=
  match s with
  | [] => []
  | c :: s' => if p c then drop_while p s' else s
  end.

(** [s.lstrip()], [s.rstrip()] and [s.strip()] without argument. *)
Definition lstrip (s : str) : str := drop_while isspace s.
Definition rstrip (s : str) : str := rev (drop_while isspace (rev s)).
Definition strip (s : str) : str := rstrip (lstrip s).

(** [s.lstrip(chars)]: leading code points that occur in [chars] go. *)
Definition lstrip_chars (chars s : str) : str :=
  drop_while (fun c => existsb (N.eqb c) chars) s.

(** Truth value of a string: [bool(s)], and the test of [if s:]. *)
Definition truthy (s : str) : bool :=
  match s with [] => false | _ :: _ => true end.

Fixpoint startswith (p s : str) : bool :=
  match p, s with
  | [], _ => true
  | _ :: _, [] => false
  | a :: p', b :: s' => (a =? b)%N && startswith p' s'
  end.

(** [sub in s]. *)
Fixpoint contains (sub s : str) : bool :=
  startswith sub s ||
  match s with
  | [] => false
  | _ :: s' => contains sub s'
  end.

(** [str(n)] for an [int]. *)
Definition str_of_int (n : Z) : str :=
  lit (NilZero.string_of_int (Z.to_int n)).


(** Empty or made of whitespace only: what [not s.strip()] accepts. *)
Definition is_blank (s : str) : bool := forallb isspace s.

End PyStr.
Import PyStr.

(** ** Python values and exceptions *)

(** The JSON-shaped values that the operations build and return.  A
    dictionary keeps the order in which its literal lists the keys. *)
Inductive value : Type :=
| VNone
| VBool (b : bool)
| VInt (n : Z)
| VStr (s : str)
| VList (items : list value)
| VDict (items : list (str * value)).

(** The classes of exception that occur: the two raised by the domain
    operations, and those the HTTP library raises during a request.  All
    derive from [Exception], which is what [except Exception] catches. *)
Inductive exc_class : Type :=
| ValueError
| RuntimeError
| ConnectionError
| Timeout
| HTTPError
| JSONDecodeError
| OtherException.

(** An exception instance: its class, the text of [str(e)], and its
    [__cause__] (set by [raise ... from e]). *)
Inductive exception : Type :=
| Exc (cls : exc_class) (message : str) (cause : option exception).

Definition exc_cls (e : exception) : exc_class :=
  match e with Exc c _ _ => c end.
Definition exc_str (e : exception) : str :=
  match e with Exc _ m _ => m end.
Definition exc_cause (e : exception) : option exception :=
  match e with Exc _ _ c => c end.

Definition result (A : Type) : Type := (exception + A)%type.

(** ** client.py *)

(** The dictionary returned by [get_client_config()].  The environment is
    represented by the values read from it: the two keys, the base URL,
    the timeout after [int(...)] and the debug flag after the comparison
    with ["true"].  An environment whose [MOUSER_API_TIMEOUT] is not an
    integer, on which [int(...)] raises, has no such dictionary and is not
    covered. *)
Record config : Type := Config {
  cfg_part_api_key : str;
  cfg_order_api_key : str;
  cfg_api_base_url : str;
  cfg_timeout : Z;
  cfg_debug : bool
}.

Inductive http_method : Type := GET | POST | PUT | DELETE.

(** What one call of [session.get/post/put/delete] is given: the verb,
    the endpoint the caller named, the URL built from it, the header
    dictionary of the session at that moment, the query parameters or the
    JSON body, and the timeout.  Headers the HTTP library adds on its own
    when it sends (cookies, content length) are not recorded. *)
Record request : Type := Request {
  req_method : http_method;
  req_endpoint : str;
  req_url : str;
  req_headers : gmap str str;
  req_params : option (list (str * str));
  req_json : option value;
  req_timeout : Z
}.

(** The HTTP response object: status line and body, the body being either
    JSON or text on which [response.json()] fails with the given message. *)
Record response : Type := Response {
  status_code : Z;
  reason : str;
  resp_url : str;
  body : str + value
}.

(** The class [APIClient]; [session_headers] is [self.session.headers],
    the one part of the HTTP session the client writes to.  What else the
    session keeps on its own (its cookie jar) is not part of the record.
    Header names are kept as written: the three names the client uses
    differ from each other also when case is ignored, as the dictionary of
    the session does. *)
Record APIClient : Type := MkAPIClient {
  base_url : str;
  timeout : Z;
  part_api_key : str;
  order_api_key : str;
  debug : bool;
  session_headers : gmap str str
}.

Definition SearchApi_Key : str := lit "SearchApi-Key".
Definition OrderApi_Key : str := lit "OrderApi-Key".
Definition Content_Type : str := lit "Content-Type".

Definition with_headers (self : APIClient) (h : gmap str str) : APIClient :=
  {| base_url := base_url self;
     timeout := timeout self;
     part_api_key := part_api_key self;
     order_api_key := order_api_key self;
     debug := debug self;
     session_headers := h |}.

(** [APIClient.__init__]; [default_headers] are the headers a fresh
    [requests.Session()] starts with. *)
Definition APIClient_init (default_headers : gmap str str)
  (part_api_key order_api_key base_url : str) (timeout : Z) (debug : bool)
  : APIClient :=
  {| base_url := base_url;
     timeout := timeout;
     part_api_key := part_api_key;
     order_api_key := order_api_key;
     debug := debug;
     session_headers :=
       <[Content_Type := lit "application/json"]> default_headers |}.

(** [APIClient._set_api_key_header]. *)
Definition _set_api_key_header (self : APIClient) (endpoint : str)
  : APIClient :=
  let h := delete SearchApi_Key (session_headers self) in
  let h := delete OrderApi_Key h in
  if contains (lit "/search/") endpoint then
    if truthy (part_api_key self)
    then with_headers self (<[SearchApi_Key := part_api_key self]> h)
    else with_headers self h
  else
    if truthy (order_api_key self)
    then with_headers self (<[OrderApi_Key := order_api_key self]> h)
    else with_headers self h.

(** *** The upstream service *)

(** What a call of [session.get/post/put/delete] comes back with: an
    exception of the HTTP library (connection failure, timeout, ...) or a
    response. *)
Inductive outcome : Type :=
| Raises (e : exception)
| Responds (r : response).

(** The network as the client sees it: [upstream n req] is the outcome of
    the request [req] when [n] requests were sent before it, and [wire]
    lists the requests sent so far, oldest first. *)
Record network : Type := Network {
  upstream : nat -> request -> outcome;
  wire : list request
}.

Definition send (req : request) (net : network) : outcome * network :=
  (upstream net (length (wire net)) req,
   {| upstream := upstream net; wire := wire net ++ [req] |}).

(** [response.raise_for_status()] of the HTTP library: 4xx and 5xx raise. *)
Definition raise_for_status (r : response) : option exception :=
  if (400 <=? status_code r) && (status_code r <? 500) then
    Some (Exc HTTPError
            (str_of_int (status_code r) ++ lit " Client Error: " ++ reason r
             ++ lit " for url: " ++ resp_url r) None)
  else if (500 <=? status_code r) && (status_code r <? 600) then
    Some (Exc HTTPError
            (str_of_int (status_code r) ++ lit " Server Error: " ++ reason r
             ++ lit " for url: " ++ resp_url r) None)
  else None.

(** [response.json()]. *)
Definition json (r : response) : result value :=
  match body r with
  | inl message => inl (Exc JSONDecodeError message None)
  | inr v => inr v
  end.

(** The two lines every method ends with:
    [response.raise_for_status(); return response.json()], after the
    session call that produced [answer]. *)
Definition checked_json (answer : outcome) : result value :=
  match answer with
  | Raises e => inl e
  | Responds response =>
      match raise_for_status response with
      | Some e => inl e
      | None => json response
      end
  end.

(** [f"{self.base_url}/{endpoint.lstrip('/')}"]. *)
Definition url_of (self : APIClient) (endpoint : str) : str :=
  base_url self ++ lit "/" ++ lstrip_chars (lit "/") endpoint.

(** A method of [APIClient] runs on the object and on the network; it
    leaves both changed and returns or raises. *)
Definition method (A : Type) : Type :=
  APIClient -> network -> result A * APIClient * network.

(** [APIClient.get]. *)
Definition get (endpoint : str) (params : option (list (str * str)))
  : method value := fun self net =>
  let self := _set_api_key_header self endpoint in
  let url := url_of self endpoint in
  let '(answer, net) :=
    send (Request GET endpoint url (session_headers self) params None
            (timeout self)) net in
  (checked_json answer, self, net).

(** [APIClient.post]. *)
Definition post (endpoint : str) (json : option value)
  : method value := fun self net =>
  let self := _set_api_key_header self endpoint in
  let url := url_of self endpoint in
  let '(answer, net) :=
    send (Request POST endpoint url (session_headers self) None json
            (timeout self)) net in
  (checked_json answer, self, net).

(** [APIClient.put]. *)
Definition put (endpoint : str) (json : option value)
  : method value := fun self net =>
  let self := _set_api_key_header self endpoint in
  let url := url_of self endpoint in
  let '(answer, net) :=
    send (Request PUT endpoint url (session_headers self) None json
            (timeout self)) net in
  (checked_json answer, self, net).

(** [APIClient.delete]. *)
Definition delete_ (endpoint : str)
  : method value := fun self net =>
  let self := _set_api_key_header self endpoint in
  let url := url_of self endpoint in
  let '(answer, net) :=
    send (Request DELETE endpoint url (session_headers self) None None
            (timeout self)) net in
  (checked_json answer, self, net).

(** *** The process state and the singleton *)

(** The state of the process between two tool calls: the configuration
    found in the environment, the headers a new HTTP session would get,
    the module global [_client_instance], and the network. *)
Record world : Type := World {
  environ : config;
  fresh_session_headers : gmap str str;
  client_instance : option APIClient;
  net : network
}.

(** Code that runs in the process: it changes the state and returns or
    raises. *)
Definition M (A : Type) : Type := world -> result A * world.

(** [raise cls(message)] and [raise cls(message) from e]. *)
Definition raise {A} (cls : exc_class) (message : str) : M A :=
  fun w => (inl (Exc cls message None), w).
Definition raise_from {A} (cls : exc_class) (message : str) (e : exception)
  : M A :=
  fun w => (inl (Exc cls message (Some e)), w).
Definition bind {A B} (m : M A) (k : A -> M B) : M B := fun w =>
  match m w with
  | (inl e, w') => (inl e, w')
  | (inr a, w') => k a w'
  end.

(** [try: body except Exception as e: handler e]. *)
Definition try_except {A} (body : M A) (handler : exception -> M A) : M A :=
  fun w =>
  match body w with
  | (inl e, w') => handler e w'
  | (inr a, w') => (inr a, w')
  end.

Declare Scope py_scope.
Delimit Scope py_scope with py.
Notation "x <- m ;; k" := (bind m (fun x => k))
  (at level 100, m at next level, right associativity) : py_scope.
Notation "m ;; k" := (bind m (fun _ => k))
  (at level 100, right associativity) : py_scope.


(** [get_client()]: builds the client on first use and keeps it. *)
Definition get_client : M APIClient := fun w =>
  match client_instance w with
  | None =>
      let config := environ w in
      let c := APIClient_init (fresh_session_headers w)
                 (cfg_part_api_key config) (cfg_order_api_key config)
                 (cfg_api_base_url config) (cfg_timeout config)
                 (cfg_debug config) in
      (inr c, {| environ := environ w;
                 fresh_session_headers := fresh_session_headers w;
                 client_instance := Some c;
                 net := net w |})
  | Some c => (inr c, w)
  end.

(** A method call [client.m(...)] on the object that [get_client()]
    returned.  The object is the singleton itself, so what the method does
    to its session is what [_client_instance] holds afterwards. *)
Definition call {A} (client : APIClient) (m : method A) : M A := fun w =>
  let '(r, client', net') := m client (net w) in
  (r, {| environ := environ w;
         fresh_session_headers := fresh_session_headers w;
         client_instance := Some client';
         net := net' |}).

Local Open Scope py_scope.

(** ** api/search.py *)

(** [search_by_keyword(keyword, records=50, start_record=0)]. *)
Definition search_by_keyword
  (keyword : str) (records start_record : option Z) : M value :=
  let records := default 50 records in
  let start_record := default 0 start_record in
  if negb (truthy (strip keyword)) then
    raise ValueError (lit "Keyword cannot be empty")
  else if records >? 50 then
    raise ValueError (lit "Maximum 50 records per request (API limit)")
  else if records <? 1 then
    raise ValueError (lit "Records must be at least 1")
  else
    client <- get_client ;;
    let payload :=
      VDict [(lit "SearchByKeywordRequest",
              VDict [(lit "keyword", VStr keyword);
                     (lit "records", VInt records);
                     (lit "startingRecord", VInt start_record)])] in
    try_except
      (call client (post (lit "search/keyword") (Some payload)))
      (fun e => raise_from RuntimeError
                  (lit "Failed to search by keyword: " ++ exc_str e) e).

(** [search_by_part_number(part_number)]. *)
Definition search_by_part_number (part_number : str) : M value :=
  if negb (truthy (strip part_number)) then
    raise ValueError (lit "Part number cannot be empty")
  else
    client <- get_client ;;
    let payload :=
      VDict [(lit "SearchByPartRequest",
              VDict [(lit "mouserPartNumber", VStr part_number)])] in
    try_except
      (call client (post (lit "search/partnumber") (Some payload)))
      (fun e => raise_from RuntimeError
                  (lit "Failed to search by part number: " ++ exc_str e) e).

(** ** api/cart.py *)

(** [get_cart(cart_key)]. *)
Definition get_cart (cart_key : str) : M value :=
  if negb (truthy (strip cart_key)) then
    raise ValueError (lit "Cart key cannot be empty")
  else
    client <- get_client ;;
    try_except
      (call client (get (lit "cart") (Some [(lit "cartKey", cart_key)])))
      (fun e => raise_from RuntimeError
                  (lit "Failed to retrieve cart: " ++ exc_str e) e).

(** [add_to_cart(cart_key, mouser_part_number, quantity,
    customer_part_number="")]. *)
Definition add_to_cart
  (cart_key mouser_part_number : str) (quantity : Z)
  (customer_part_number : option str) : M value :=
  let customer_part_number := default (lit "") customer_part_number in
  if negb (truthy (strip cart_key)) then
    raise ValueError (lit "Cart key cannot be empty")
  else if negb (truthy (strip mouser_part_number)) then
    raise ValueError (lit "Mouser part number cannot be empty")
  else if quantity <? 1 then
    raise ValueError (lit "Quantity must be at least 1")
  else
    client <- get_client ;;
    let payload :=
      VDict [(lit "CartKey", VStr cart_key);
             (lit "CartItems",
              VList [VDict [(lit "MouserPartNumber", VStr mouser_part_number);
                            (lit "Quantity", VInt quantity);
                            (lit "CustomerPartNumber",
                             VStr customer_part_number)]])] in
    try_except
      (call client (post (lit "cart/items/insert") (Some payload)))
      (fun e => raise_from RuntimeError
                  (lit "Failed to add item to cart: " ++ exc_str e) e).

(** [update_cart_item(cart_key, mouser_part_number, quantity)]. *)
Definition update_cart_item
  (cart_key mouser_part_number : str) (quantity : Z) : M value :=
  if negb (truthy (strip cart_key)) then
    raise ValueError (lit "Cart key cannot be empty")
  else if negb (truthy (strip mouser_part_number)) then
    raise ValueError (lit "Mouser part number cannot be empty")
  else if quantity <? 0 then
    raise ValueError (lit "Quantity cannot be negative")
  else
    client <- get_client ;;
    let payload :=
      VDict [(lit "CartKey", VStr cart_key);
             (lit "CartItems",
              VList [VDict [(lit "MouserPartNumber", VStr mouser_part_number);
                            (lit "Quantity", VInt quantity)]])] in
    try_except
      (call client (post (lit "cart/items/update") (Some payload)))
      (fun e => raise_from RuntimeError
                  (lit "Failed to update cart item: " ++ exc_str e) e).

(** ** api/order.py *)

(** [get_order_options(cart_key)]. *)
Definition get_order_options (cart_key : str) : M value :=
  if negb (truthy (strip cart_key)) then
    raise ValueError (lit "Cart key cannot be empty")
  else
    client <- get_client ;;
    let payload := VDict [(lit "CartKey", VStr cart_key)] in
    try_except
      (call client (post (lit "order/options/query") (Some payload)))
      (fun e => raise_from RuntimeError
                  (lit "Failed to get order options: " ++ exc_str e) e).

(** [get_order(order_number)]. *)
Definition get_order (order_number : str) : M value :=
  if negb (truthy (strip order_number)) then
    raise ValueError (lit "Order number cannot be empty")
  else
    client <- get_client ;;
    let payload := VDict [(lit "OrderNumber", VStr order_number)] in
    try_except
      (call client (post (lit "order/get") (Some payload)))
      (fun e => raise_from RuntimeError
                  (lit "Failed to get order: " ++ exc_str e) e).

(** ** api/order_history.py *)

(** [list_order_history(days=30)]. *)
Definition list_order_history (days : option Z) : M value :=
  let days := default 30 days in
  if days <? 1 then
    raise ValueError (lit "Days must be at least 1")
  else
    client <- get_client ;;
    let payload := VDict [(lit "Days", VInt days)] in
    try_except
      (call client (post (lit "orderhistory/query") (Some payload)))
      (fun e => raise_from RuntimeError
                  (lit "Failed to get order history: " ++ exc_str e) e).

(** ** server.py *)




(** The tools registered with [mcp.tool()], as one type of calls. *)
Inductive tool_call : Type :=
| SearchByKeyword (keyword : str) (records start_record : option Z)
| SearchByPartNumber (part_number : str)
| GetCart (cart_key : str)
| AddToCart (cart_key mouser_part_number : str) (quantity : Z)
    (customer_part_number : option str)
| UpdateCartItem (cart_key mouser_part_number : str) (quantity : Z)
| GetOrderOptions (cart_key : str)
| GetOrder (order_number : str)
| ListOrderHistory (days : option Z).

Definition run_tool (c : tool_call) : M value :=
  match c with
  | SearchByKeyword k r s => search_by_keyword k r s
  | SearchByPartNumber p => search_by_part_number p
  | GetCart k => get_cart k
  | AddToCart k p q c => add_to_cart k p q c
  | UpdateCartItem k p q => update_cart_item k p q
  | GetOrderOptions k => get_order_options k
  | GetOrder n => get_order n
  | ListOrderHistory d => list_order_history d
  end.

(** ** Vocabulary of the properties *)

(** The four methods of the client under one name, by verb. *)
Definition perform (verb : http_method) (endpoint : str)
  (params : option (list (str * str))) (json : option value)
  : method value :=
  match verb with
  | GET => get endpoint params
  | POST => post endpoint json
  | PUT => put endpoint json
  | DELETE => delete_ endpoint
  end.

(** The object [get_client()] returns in state [w]. *)
Definition current_client (w : world) : APIClient :=
  match client_instance w with
  | Some c => c
  | None =>
      APIClient_init (fresh_session_headers w)
        (cfg_part_api_key (environ w)) (cfg_order_api_key (environ w))
        (cfg_api_base_url (environ w)) (cfg_timeout (environ w))
        (cfg_debug (environ w))
  end.

(** The request a method call with these arguments sends from state [w]. *)
Definition request_sent (verb : http_method) (endpoint : str)
  (params : option (list (str * str))) (json : option value) (w : world)
  : request :=
  let self := _set_api_key_header (current_client w) endpoint in
  Request verb endpoint (url_of self endpoint) (session_headers self)
    params json (timeout self).

(** The answer of the upstream service to the next request. *)
Definition answer_to (req : request) (w : world) : outcome :=
  upstream (net w) (length (wire (net w))) req.

(** The state once [req], addressed to [endpoint], has been sent. *)
Definition after_request (req : request) (endpoint : str) (w : world)
  : world :=
  {| environ := environ w;
     fresh_session_headers := fresh_session_headers w;
     client_instance :=
       Some (_set_api_key_header (current_client w) endpoint);
     net := {| upstream := upstream (net w);
               wire := wire (net w) ++ [req] |} |}.

(** What the [except] clause of an operation makes of the result of the
    client: [raise RuntimeError(f"{label}{e}") from e]. *)
Definition wrap_failure (label : str) (r : result value) : result value :=
  match r with
  | inl e => inl (Exc RuntimeError (label ++ exc_str e) (Some e))
  | inr v => inr v
  end.

(** [m] fails validation in [w]: it raises [ValueError(message)] and
    leaves the state as it was (no client built, nothing sent). *)
Definition rejects (m : M value) (w : world) (message : str) : Prop :=
  m w = (inl (Exc ValueError message None), w).

(** [m] passes validation in [w] and sends exactly one request, the one
    described; it returns the JSON of the answer, or raises the
    [RuntimeError] that wraps the failure. *)
Definition dispatches (m : M value) (w : world) (label : str)
  (verb : http_method) (endpoint : str)
  (params : option (list (str * str))) (json : option value) : Prop :=
  let req := request_sent verb endpoint params json w in
  m w = (wrap_failure label (checked_json (answer_to req w)),
         after_request req endpoint w).

(** The text that opens the message of the [RuntimeError] of each tool. *)
Definition failure_label (c : tool_call) : str :=
  match c with
  | SearchByKeyword _ _ _ => lit "Failed to search by keyword: "
  | SearchByPartNumber _ => lit "Failed to search by part number: "
  | GetCart _ => lit "Failed to retrieve cart: "
  | AddToCart _ _ _ _ => lit "Failed to add item to cart: "
  | UpdateCartItem _ _ _ => lit "Failed to update cart item: "
  | GetOrderOptions _ => lit "Failed to get order options: "
  | GetOrder _ => lit "Failed to get order: "
  | ListOrderHistory _ => lit "Failed to get order history: "
  end.

(** The name of the tool a call is addressed to. *)
Definition tool_name (c : tool_call) : string :=
  match c with
  | SearchByKeyword _ _ _ => "search_by_keyword"
  | SearchByPartNumber _ => "search_by_part_number"
  | GetCart _ => "get_cart"
  | AddToCart _ _ _ _ => "add_to_cart"
  | UpdateCartItem _ _ _ => "update_cart_item"
  | GetOrderOptions _ => "get_order_options"
  | GetOrder _ => "get_order"
  | ListOrderHistory _ => "list_order_history"
  end.

(** *** Sample states *)

Definition ok_response : response :=
  Response 200 (lit "OK") (lit "") (inr (VDict [])).

Definition sample_config : config :=
  Config (lit "part-key") (lit "order-key")
    (lit "https://api.mouser.com/api/v1") 30 false.

(** A fresh process with both keys configured and a service that answers
    every request with [200 OK] and an empty object. *)
Definition sample_world : world :=
  World sample_config ∅ None (Network (fun _ _ => Responds ok_response) []).

(** The same process when the service times out on every request. *)
Definition timeout_world : world :=
  World sample_config ∅ None
    (Network (fun _ _ => Raises (Exc Timeout (lit "Read timed out.") None))
       []).

(** *** Sequences of calls and changes of the environment *)

(** The state when the environment is changed to [cfg] while the process
    runs; the singleton and the network stay as they are. *)
Definition set_environ (cfg : config) (w : world) : world :=
  {| environ := cfg;
     fresh_session_headers := fresh_session_headers w;
     client_instance := client_instance w;
     net := net w |}.

(** The state after the tool calls [cs], made one after the other; what a
    call returns or raises goes to its caller and the process goes on. *)
Fixpoint run_tools (cs : list tool_call) (w : world) : world :=
  match cs with
  | [] => w
  | c :: cs' => run_tools cs' (snd (run_tool c w))
  end.

(** [n] slashes. *)
Definition slashes (n : nat) : str := repeat 47%N n.

(** A request as a tool sends it from a process configured by [cfg]: JSON
    content type, the order key when there is one and never the part key,
    the URL and the timeout of the configuration. *)
Definition tool_request (cfg : config) (req : request) : Prop :=
  req_headers req !! Content_Type = Some (lit "application/json")
  /\ req_headers req !! SearchApi_Key = None
  /\ req_headers req !! OrderApi_Key
     = (if truthy (cfg_order_api_key cfg)
        then Some (cfg_order_api_key cfg) else None)
  /\ req_url req = cfg_api_base_url cfg ++ lit "/" ++ req_endpoint req
  /\ req_timeout req = cfg_timeout cfg.

(** The singleton, when it exists, is the one [get_client()] builds from
    [cfg], up to the key headers of its session. *)
Definition client_of_config (cfg : config) (w : world) : Prop :=
  match client_instance w with
  | None => True
  | Some c =>
      base_url c = cfg_api_base_url cfg
      /\ timeout c = cfg_timeout cfg
      /\ part_api_key c = cfg_part_api_key cfg
      /\ order_api_key c = cfg_order_api_key cfg
      /\ session_headers c !! Content_Type = Some (lit "application/json")
  end.

(** The arguments that pass validation, tool by tool: the required
    strings are not blank and the numbers are within their bounds. *)
Definition accepts (c : tool_call) : bool :=
  match c with
  | SearchByKeyword keyword records _ =>
      negb (is_blank keyword)
      && (1 <=? default 50 records) && (default 50 records <=? 50)
  | SearchByPartNumber part_number => negb (is_blank part_number)
  | GetCart cart_key => negb (is_blank cart_key)
  | AddToCart cart_key mouser_part_number quantity _ =>
      negb (is_blank cart_key) && negb (is_blank mouser_part_number)
      && (1 <=? quantity)
  | UpdateCartItem cart_key mouser_part_number quantity =>
      negb (is_blank cart_key) && negb (is_blank mouser_part_number)
      && (0 <=? quantity)
  | GetOrderOptions cart_key => negb (is_blank cart_key)
  | GetOrder order_number => negb (is_blank order_number)
  | ListOrderHistory days => 1 <=? default 30 days
  end.

(** The sample process when the service answers every request with
    [404 Not Found] and a JSON body that tells why. *)
Definition not_found_world : world :=
  World sample_config ∅ None
    (Network
       (fun _ req =>
          Responds
            (Response 404 (lit "Not Found") (req_url req)
               (inr (VDict [(lit "Errors",
                             VList [VStr (lit "Order not found")])]))))
       []).

Arguments lit : simpl never.

(** * Properties *)

(** ** Strings *)

Example isspace_tab_nbsp_em :
  List.map isspace [9; 32; 160; 8195; 12288; 65; 0; 8203]%N
  = [true; true; true; true; true; false; false; false].
Proof. reflexivity. Qed.

Example strip_inner_space :
  strip (lit "  a b  ") = lit "a b".
Proof. reflexivity. Qed.

Example contains_search_examples :
  contains (lit "/search/") (lit "search/keyword") = false
  /\ contains (lit "/search/") (lit "/search/keyword") = true
  /\ contains (lit "search") (lit "search/keyword") = true.
Proof. repeat split; reflexivity. Qed.

Example str_of_int_examples :
  str_of_int 30 = lit "30" /\ str_of_int 0 = lit "0" /\ str_of_int (-7) = lit "-7".
Proof. repeat split; reflexivity. Qed.

Lemma truthy_drop_while (p : char -> bool) (s : str) :
  truthy (drop_while p s) = negb (forallb p s).
Proof.
  induction s as [|c s IH]; simpl; [reflexivity|].
  destruct (p c) eqn:Hc; simpl; rewrite ?Hc; auto.
Qed.

Lemma forallb_drop_while (p : char -> bool) (s : str) :
  forallb p (drop_while p s) = forallb p s.
Proof.
  induction s as [|c s IH]; simpl; [reflexivity|].
  destruct (p c) eqn:Hc; simpl; rewrite ?Hc; auto.
Qed.

Lemma truthy_rev (s : str) : truthy (rev s) = truthy s.
Proof.
  destruct s as [|c s]; simpl; [reflexivity|].
  destruct (rev s); reflexivity.
Qed.

Lemma forallb_rev (p : char -> bool) (s : str) :
  forallb p (rev s) = forallb p s.
Proof.
  induction s as [|c s IH]; simpl; [reflexivity|].
  rewrite forallb_app, IH. simpl. rewrite andb_true_r. apply andb_comm.
Qed.

(** [s.strip()] is the empty string exactly when [s] is blank. *)
Lemma truthy_strip (s : str) : truthy (strip s) = negb (is_blank s).
Proof.
  unfold strip, rstrip, lstrip, is_blank.
  rewrite truthy_rev, truthy_drop_while, forallb_rev, forallb_drop_while.
  reflexivity.
Qed.

Lemma strip_nil_iff (s : str) : strip s = [] <-> is_blank s = true.
Proof.
  pose proof (truthy_strip s) as H. split; intros E.
  - rewrite E in H. simpl in H. now destruct (is_blank s).
  - rewrite E in H. now destruct (strip s).
Qed.

(** [sub in s] holds exactly when [s] is [sub] with text around it. *)
Lemma startswith_spec (p s : str) :
  startswith p s = true <-> exists t, s = p ++ t.
Proof.
  revert s; induction p as [|a p IH]; intros s; simpl.
  - split; [intros _; now exists s | reflexivity].
  - destruct s as [|b s]; simpl.
    + split; [discriminate | intros [t Ht]; discriminate].
    + rewrite andb_true_iff, N.eqb_eq, IH. split.
      * intros [-> [t ->]]. now exists t.
      * intros [t Ht]. injection Ht as -> ->. split; [reflexivity | now exists t].
Qed.

Lemma contains_spec (sub s : str) :
  contains sub s = true <-> exists u t, s = u ++ sub ++ t.
Proof.
  induction s as [|b s IH]; simpl.
  - rewrite orb_false_r, startswith_spec. split.
    + intros [t Ht]. now exists [], t.
    + intros [u [t Ht]]. destruct u; simpl in Ht.
      * now exists t.
      * discriminate.
  - rewrite orb_true_iff, startswith_spec, IH. split.
    + intros [[t Ht] | [u [t Ht]]].
      * now exists [], t.
      * exists (b :: u), t. simpl. now rewrite Ht.
    + intros [u [t Ht]]. destruct u as [|c u]; simpl in Ht.
      * left. now exists t.
      * right. injection Ht as _ Ht. now exists u, t.
Qed.

(** ** The key header *)

Lemma key_headers_differ : SearchApi_Key <> OrderApi_Key.
Proof. vm_compute. discriminate. Qed.

(** After [_set_api_key_header] the two key headers of the session depend
    on the endpoint and on the two keys only, not on what the session held
    before. *)
Lemma set_api_key_header_search (self : APIClient) (endpoint : str) :
  session_headers (_set_api_key_header self endpoint) !! SearchApi_Key
  = if contains (lit "/search/") endpoint && truthy (part_api_key self)
    then Some (part_api_key self) else None.
Proof.
  pose proof key_headers_differ as Hne.
  unfold _set_api_key_header.
  destruct (contains (lit "/search/") endpoint);
    [destruct (truthy (part_api_key self))
    |destruct (truthy (order_api_key self))];
    simpl; simplify_map_eq; reflexivity.
Qed.

Lemma set_api_key_header_order (self : APIClient) (endpoint : str) :
  session_headers (_set_api_key_header self endpoint) !! OrderApi_Key
  = if negb (contains (lit "/search/") endpoint)
       && truthy (order_api_key self)
    then Some (order_api_key self) else None.
Proof.
  pose proof key_headers_differ as Hne.
  unfold _set_api_key_header.
  destruct (contains (lit "/search/") endpoint);
    [destruct (truthy (part_api_key self))
    |destruct (truthy (order_api_key self))];
    simpl; simplify_map_eq; reflexivity.
Qed.

(** Headers other than the two key headers are left alone. *)
Lemma set_api_key_header_other (self : APIClient) (endpoint name : str) :
  name <> SearchApi_Key -> name <> OrderApi_Key ->
  session_headers (_set_api_key_header self endpoint) !! name
  = session_headers self !! name.
Proof.
  intros H1 H2. unfold _set_api_key_header.
  destruct (contains (lit "/search/") endpoint);
    [destruct (truthy (part_api_key self))
    |destruct (truthy (order_api_key self))];
    simpl; simplify_map_eq; reflexivity.
Qed.

Lemma set_api_key_header_fields (self : APIClient) (endpoint : str) :
  base_url (_set_api_key_header self endpoint) = base_url self
  /\ timeout (_set_api_key_header self endpoint) = timeout self
  /\ part_api_key (_set_api_key_header self endpoint) = part_api_key self
  /\ order_api_key (_set_api_key_header self endpoint) = order_api_key self.
Proof.
  unfold _set_api_key_header.
  destruct (contains (lit "/search/") endpoint);
    [destruct (truthy (part_api_key self))
    |destruct (truthy (order_api_key self))];
    simpl; auto.
Qed.

(** What one method call does, whatever the verb: the key header is set,
    one request leaves with the headers of the session, and the answer is
    checked and parsed. *)
Lemma perform_spec (verb : http_method) (endpoint : str)
  (params : option (list (str * str))) (json : option value)
  (self : APIClient) (net : network) :
  let self' := _set_api_key_header self endpoint in
  let req :=
    Request verb endpoint (url_of self' endpoint) (session_headers self')
      (match verb with GET => params | _ => None end)
      (match verb with POST | PUT => json | _ => None end)
      (timeout self') in
  perform verb endpoint params json self net
  = (checked_json (upstream net (length (wire net)) req), self',
     {| upstream := upstream net; wire := wire net ++ [req] |}).
Proof. destruct verb; reflexivity. Qed.

(** ** The common shape of the operations *)

Lemma get_client_spec (w : world) :
  get_client w
  = (inr (current_client w),
     {| environ := environ w;
        fresh_session_headers := fresh_session_headers w;
        client_instance := Some (current_client w);
        net := net w |}).
Proof.
  unfold get_client, current_client. destruct w as [e f [c|] n]; reflexivity.
Qed.

(** Once validation has passed, every operation is [get_client()]
    followed by one guarded method call. *)
Lemma guarded_call_dispatches (label : str) (verb : http_method)
  (endpoint : str) (params : option (list (str * str)))
  (json : option value) (w : world) :
  (match verb with GET => True | _ => params = None end) ->
  (match verb with POST | PUT => True | _ => json = None end) ->
  dispatches
    (client <- get_client ;;
     try_except (call client (perform verb endpoint params json))
       (fun e => raise_from RuntimeError (label ++ exc_str e) e))
    w label verb endpoint params json.
Proof.
  intros Hp Hj. unfold dispatches, bind, try_except, call.
  rewrite get_client_spec. cbn [net].
  rewrite perform_spec. cbv zeta.
  unfold request_sent, answer_to, after_request, wrap_failure, raise_from.
  replace (match verb with GET => params | _ => None end) with params
    by (destruct verb; congruence).
  replace (match verb with POST | PUT => json | _ => None end) with json
    by (destruct verb; congruence).
  destruct (checked_json _); reflexivity.
Qed.

(** ** Validation, operation by operation *)

(** Decides the tests of a validation prefix: blankness by case analysis
    or from a hypothesis, integer bounds by comparison. *)
Ltac decide_checks :=
  repeat match goal with
  | |- context [truthy (strip ?s)] => rewrite (truthy_strip s)
  | H : is_blank ?s = _ |- context [is_blank ?s] => rewrite H
  | |- context [is_blank ?s] => destruct (is_blank s) eqn:?
  | |- context [Z.gtb ?a ?b] => destruct (Z.gtb_spec a b); try lia
  | |- context [Z.ltb ?a ?b] => destruct (Z.ltb_spec a b); try lia
  end; cbn [negb].

(** Closes a goal [dispatches op w ...] once the checks are decided. *)
Ltac by_guarded_call :=
  lazymatch goal with
  | |- dispatches _ ?w ?label ?verb ?endpoint ?params ?json =>
      refine (guarded_call_dispatches label verb endpoint params json w _ _);
      first [exact I | reflexivity]
  end.

(** Names the request of a validated operation from its method call. *)
Ltac name_request :=
  lazymatch goal with
  | |- context [call _ (post ?e ?j)] => exists POST, e, None, j
  | |- context [call _ (get ?e ?p)] => exists GET, e, p, None
  end.

Lemma search_by_keyword_dispatches
  (keyword : str) (records start_record : option Z) (w : world) :
  is_blank keyword = false ->
  1 <= default 50 records <= 50 ->
  dispatches (search_by_keyword keyword records start_record) w
    (lit "Failed to search by keyword: ") POST (lit "search/keyword") None
    (Some (VDict [(lit "SearchByKeywordRequest",
                   VDict [(lit "keyword", VStr keyword);
                          (lit "records", VInt (default 50 records));
                          (lit "startingRecord",
                           VInt (default 0 start_record))])])).
Proof.
  intros Hk Hr. unfold search_by_keyword. decide_checks. by_guarded_call.
Qed.

Lemma add_to_cart_dispatches
  (cart_key mouser_part_number : str) (quantity : Z)
  (customer_part_number : option str) (w : world) :
  is_blank cart_key = false ->
  is_blank mouser_part_number = false ->
  1 <= quantity ->
  dispatches
    (add_to_cart cart_key mouser_part_number quantity customer_part_number)
    w (lit "Failed to add item to cart: ") POST (lit "cart/items/insert")
    None
    (Some (VDict [(lit "CartKey", VStr cart_key);
                  (lit "CartItems",
                   VList [VDict [(lit "MouserPartNumber",
                                  VStr mouser_part_number);
                                 (lit "Quantity", VInt quantity);
                                 (lit "CustomerPartNumber",
                                  VStr (default (lit "")
                                          customer_part_number))]])])).
Proof.
  intros Hk Hp Hq. unfold add_to_cart. decide_checks. by_guarded_call.
Qed.

Lemma update_cart_item_dispatches
  (cart_key mouser_part_number : str) (quantity : Z) (w : world) :
  is_blank cart_key = false ->
  is_blank mouser_part_number = false ->
  0 <= quantity ->
  dispatches (update_cart_item cart_key mouser_part_number quantity) w
    (lit "Failed to update cart item: ") POST (lit "cart/items/update") None
    (Some (VDict [(lit "CartKey", VStr cart_key);
                  (lit "CartItems",
                   VList [VDict [(lit "MouserPartNumber",
                                  VStr mouser_part_number);
                                 (lit "Quantity", VInt quantity)]])])).
Proof.
  intros Hk Hp Hq. unfold update_cart_item. decide_checks. by_guarded_call.
Qed.

Lemma list_order_history_dispatches (days : option Z) (w : world) :
  1 <= default 30 days ->
  dispatches (list_order_history days) w
    (lit "Failed to get order history: ") POST (lit "orderhistory/query")
    None (Some (VDict [(lit "Days", VInt (default 30 days))])).
Proof.
  intros Hd. unfold list_order_history. decide_checks. by_guarded_call.
Qed.

(** Every tool call either fails validation, leaving the state untouched,
    or sends one request through the client under its own label; the
    endpoint it names never contains "/search/". *)
Lemma run_tool_cases (c : tool_call) (w : world) :
  (exists message, rejects (run_tool c) w message)
  \/ (exists verb endpoint params json,
        dispatches (run_tool c) w (failure_label c) verb endpoint params
          json
        /\ contains (lit "/search/") endpoint = false).
Proof.
  destruct c; cbn [run_tool failure_label];
    unfold search_by_keyword, search_by_part_number, get_cart, add_to_cart,
      update_cart_item, get_order_options, get_order, list_order_history;
    decide_checks;
    solve [ left; eexists; reflexivity
          | right; name_request; split; [by_guarded_call | reflexivity] ].
Qed.

Lemma dispatches_wire (m : M value) (w : world) (label : str)
  (verb : http_method) (endpoint : str)
  (params : option (list (str * str))) (json : option value) :
  dispatches m w label verb endpoint params json ->
  wire (net (snd (m w)))
  = wire (net w) ++ [request_sent verb endpoint params json w].
Proof. unfold dispatches. intros ->. reflexivity. Qed.

Lemma after_request_changes (req : request) (endpoint : str) (w : world) :
  after_request req endpoint w <> w.
Proof.
  intros E. apply (f_equal (fun x => length (wire (net x)))) in E.
  simpl in E. rewrite length_app in E. simpl in E. lia.
Qed.

(** An operation that dispatches has passed validation. *)
Lemma dispatches_passes_validation (m : M value) (w : world) (label : str)
  (verb : http_method) (endpoint : str)
  (params : option (list (str * str))) (json : option value) :
  dispatches m w label verb endpoint params json ->
  forall message, ~ rejects m w message.
Proof.
  unfold dispatches, rejects. intros -> message E.
  injection E as _ E. exact (after_request_changes _ _ _ E).
Qed.

(** The failures of a method call: an exception of the session call, a
    4xx or 5xx status, a body that is not JSON. *)
Lemma checked_json_failures :
  (forall e, checked_json (Raises e) = inl e)
  /\ (forall r, 400 <= status_code r < 600 ->
        exists message,
          checked_json (Responds r) = inl (Exc HTTPError message None))
  /\ (forall r message,
        ~ 400 <= status_code r < 600 -> body r = inl message ->
        checked_json (Responds r) = inl (Exc JSONDecodeError message None)).
Proof.
  split; [reflexivity|]. split.
  - intros r Hs. unfold checked_json, raise_for_status.
    destruct (Z.leb_spec 400 (status_code r)); [|lia].
    destruct (Z.ltb_spec (status_code r) 500); simpl.
    + eexists; reflexivity.
    + destruct (Z.leb_spec 500 (status_code r)); [|lia].
      destruct (Z.ltb_spec (status_code r) 600); [|lia].
      simpl. eexists; reflexivity.
  - intros r message Hs Hb. unfold checked_json, raise_for_status, json.
    rewrite Hb.
    destruct (Z.leb_spec 400 (status_code r));
      destruct (Z.ltb_spec (status_code r) 500);
      destruct (Z.leb_spec 500 (status_code r));
      destruct (Z.ltb_spec (status_code r) 600);
      simpl; try reflexivity; lia.
Qed.

(** The label of the [RuntimeError] tells which tool failed. *)
Lemma failure_label_identifies_tool (c1 c2 : tool_call) :
  failure_label c1 = failure_label c2 -> tool_name c1 = tool_name c2.
Proof.
  destruct c1, c2; cbn [failure_label tool_name]; intros E;
    first [reflexivity | exfalso; vm_compute in E; discriminate E].
Qed.

(** No tool ever sends the part key: whatever the call and the state, the
    request carries no SearchApi-Key header, and carries the order key
    under OrderApi-Key when there is one. *)
Lemma no_tool_sends_search_key (c : tool_call) (w : world) :
  (exists message, rejects (run_tool c) w message)
  \/ (exists req,
        wire (net (snd (run_tool c w))) = wire (net w) ++ [req]
        /\ req_headers req !! SearchApi_Key = None
        /\ req_headers req !! OrderApi_Key
           = (if truthy (order_api_key (current_client w))
              then Some (order_api_key (current_client w)) else None)).
Proof.
  destruct (run_tool_cases c w)
    as [Hrej | (verb & endpoint & params & json & H & Hpath)];
    [left; exact Hrej | right].
  exists (request_sent verb endpoint params json w).
  split; [exact (dispatches_wire _ _ _ _ _ _ _ H)|].
  cbn [request_sent req_headers].
  rewrite set_api_key_header_search, set_api_key_header_order, Hpath.
  split; reflexivity.
Qed.

(** [get_cart("abc-123")] in a fresh process: one GET to "cart" with the
    query parameter [cartKey=abc-123] and the order key. *)
Example get_cart_scenario :
  exists r w' req,
    get_cart (lit "abc-123") sample_world = (r, w')
    /\ r = inr (VDict [])
    /\ wire (net w') = [req]
    /\ req_method req = GET
    /\ req_url req = lit "https://api.mouser.com/api/v1/cart"
    /\ req_params req = Some [(lit "cartKey", lit "abc-123")]
    /\ req_headers req !! SearchApi_Key = None
    /\ req_headers req !! OrderApi_Key = Some (lit "order-key")
    /\ req_headers req !! Content_Type = Some (lit "application/json")
    /\ req_timeout req = 30.
Proof.
  do 3 eexists. split; [reflexivity|]. cbn [wire net].
  split; [reflexivity|]. split; [reflexivity|].
  repeat split; vm_compute; reflexivity.
Qed.

(** A timeout of the service comes out of [get_order] as the wrapped
    failure, after one request. *)
Example get_order_timeout :
  fst (get_order (lit "WEB12345678") timeout_world)
  = inl (Exc RuntimeError (lit "Failed to get order: Read timed out.")
           (Some (Exc Timeout (lit "Read timed out.") None)))
  /\ length (wire (net (snd (get_order (lit "WEB12345678") timeout_world))))
     = 1%nat.
Proof. split; vm_compute; reflexivity. Qed.

(** ** The claims *)

(** C1 (the code departs from the claim).  Claim: a request to a path
    that contains "search" carries the part key under SearchApi-Key and no
    OrderApi-Key header, for all eight operations.  The code tests for
    "/search/" with both slashes, and the two search operations name their
    endpoints without a leading slash: in a process with both keys
    configured, the one request of [search_by_keyword("Arduino", 10)] goes
    to "search/keyword" without SearchApi-Key and with the order key under
    OrderApi-Key; [search_by_part_number] does the same. *)
Theorem search_requests_carry_order_key :
  (exists r w' req,
     search_by_keyword (lit "Arduino") (Some 10) None sample_world = (r, w')
     /\ wire (net w') = [req]
     /\ req_endpoint req = lit "search/keyword"
     /\ contains (lit "search") (req_endpoint req) = true
     /\ req_headers req !! SearchApi_Key = None
     /\ req_headers req !! OrderApi_Key = Some (lit "order-key"))
  /\ (exists r w' req,
        search_by_part_number (lit "595-TPS54360DDAR") sample_world = (r, w')
        /\ wire (net w') = [req]
        /\ req_endpoint req = lit "search/partnumber"
        /\ contains (lit "search") (req_endpoint req) = true
        /\ req_headers req !! SearchApi_Key = None
        /\ req_headers req !! OrderApi_Key = Some (lit "order-key")).
Proof.
  split.
  - pose proof (search_by_keyword_dispatches (lit "Arduino") (Some 10) None
                  sample_world eq_refl ltac:(simpl; lia)) as H.
    unfold dispatches in H. cbv zeta in H.
    do 3 eexists. split; [exact H|].
    split; [reflexivity|]. split; [reflexivity|]. split; [reflexivity|].
    cbn [request_sent req_headers].
    rewrite set_api_key_header_search, set_api_key_header_order.
    split; reflexivity.
  - assert (dispatches (search_by_part_number (lit "595-TPS54360DDAR"))
              sample_world (lit "Failed to search by part number: ") POST
              (lit "search/partnumber") None
              (Some (VDict [(lit "SearchByPartRequest",
                             VDict [(lit "mouserPartNumber",
                                     VStr (lit "595-TPS54360DDAR"))])])))
      as H.
    { unfold search_by_part_number. decide_checks.
      - discriminate.
      - by_guarded_call. }
    unfold dispatches in H. cbv zeta in H.
    do 3 eexists. split; [exact H|].
    split; [reflexivity|]. split; [reflexivity|]. split; [reflexivity|].
    cbn [request_sent req_headers].
    rewrite set_api_key_header_search, set_api_key_header_order.
    split; reflexivity.
Qed.

(** C2.  Every operation with a required string argument raises
    [ValueError] when that argument is empty or made of whitespace only,
    and does so before the client is obtained and before anything is
    sent: the state of the process (the singleton and the wire) is left
    exactly as it was. *)
Theorem blank_argument_rejected_before_io (s : str) (w : world) :
  is_blank s = true ->
  (forall records start_record, exists message,
     rejects (search_by_keyword s records start_record) w message)
  /\ (exists message, rejects (search_by_part_number s) w message)
  /\ (exists message, rejects (get_cart s) w message)
  /\ (forall part quantity customer, exists message,
        rejects (add_to_cart s part quantity customer) w message)
  /\ (forall cart_key quantity customer, exists message,
        rejects (add_to_cart cart_key s quantity customer) w message)
  /\ (forall part quantity, exists message,
        rejects (update_cart_item s part quantity) w message)
  /\ (forall cart_key quantity, exists message,
        rejects (update_cart_item cart_key s quantity) w message)
  /\ (exists message, rejects (get_order_options s) w message)
  /\ (exists message, rejects (get_order s) w message).
Proof.
  intros Hs.
  repeat split; intros;
    unfold search_by_keyword, search_by_part_number, get_cart, add_to_cart,
      update_cart_item, get_order_options, get_order;
    rewrite ?truthy_strip, ?Hs; cbn [negb];
    try (eexists; reflexivity).
  - destruct (is_blank cart_key); cbn [negb]; eexists; reflexivity.
  - destruct (is_blank cart_key); cbn [negb]; eexists; reflexivity.
Qed.

Lemma blank_argument_rejected_before_io_witness :
  is_blank (lit "  ") = true
  /\ (exists message, rejects (get_cart (lit "  ")) sample_world message)
  /\ (exists message,
        rejects (add_to_cart (lit "k1") (lit "  ") 5 None) sample_world
          message).
Proof.
  split; [reflexivity|].
  destruct (blank_argument_rejected_before_io (lit "  ") sample_world
              eq_refl) as (_ & _ & Hcart & _ & Hadd & _).
  split; [exact Hcart | exact (Hadd (lit "k1") 5 None)].
Defined.

(** C3.  A tool call either fails validation, or sends exactly one request
    through the client; in the second case whatever exception [e] the
    method call raises (from the session call, from the status check or
    from parsing the body) comes out as one [RuntimeError] whose message is
    the label of the tool followed by [str(e)] and whose cause is [e], and
    a parsed answer is returned as it is.  No second request is sent, and
    the label determines the tool. *)
Theorem dispatch_failures_are_wrapped (c : tool_call) (w : world) :
  ((exists message, rejects (run_tool c) w message)
   \/ (exists req,
         wire (net (snd (run_tool c w))) = wire (net w) ++ [req]
         /\ (forall e, checked_json (answer_to req w) = inl e ->
               fst (run_tool c w)
               = inl (Exc RuntimeError (failure_label c ++ exc_str e)
                        (Some e)))
         /\ (forall v, checked_json (answer_to req w) = inr v ->
               fst (run_tool c w) = inr v)))
  /\ (forall c', failure_label c' = failure_label c ->
        tool_name c' = tool_name c).
Proof.
  split; [|intros c'; apply failure_label_identifies_tool].
  destruct (run_tool_cases c w)
    as [Hrej | (verb & endpoint & params & json & H & _)];
    [left; exact Hrej | right].
  exists (request_sent verb endpoint params json w).
  split; [exact (dispatches_wire _ _ _ _ _ _ _ H)|].
  unfold dispatches in H. cbv zeta in H. rewrite H. cbn [fst].
  split; intros x Hx; rewrite Hx; reflexivity.
Qed.

(** C4.  [add_to_cart("k1", "595-X", 5)] sends exactly one request: a POST
    to "cart/items/insert" whose JSON body is the cart key and a list of
    one item with the part number, the quantity 5 and an empty customer
    part number. *)
Theorem add_to_cart_scenario (w : world) :
  exists req,
    wire (net (snd (add_to_cart (lit "k1") (lit "595-X") 5 None w)))
    = wire (net w) ++ [req]
    /\ req_method req = POST
    /\ req_endpoint req = lit "cart/items/insert"
    /\ req_url req = base_url (current_client w) ++ lit "/cart/items/insert"
    /\ req_params req = None
    /\ req_json req
       = Some (VDict [(lit "CartKey", VStr (lit "k1"));
                      (lit "CartItems",
                       VList [VDict [(lit "MouserPartNumber",
                                      VStr (lit "595-X"));
                                     (lit "Quantity", VInt 5);
                                     (lit "CustomerPartNumber",
                                      VStr (lit ""))]])]).
Proof.
  pose proof (add_to_cart_dispatches (lit "k1") (lit "595-X") 5 None w
                eq_refl eq_refl ltac:(lia)) as H.
  eexists. split; [exact (dispatches_wire _ _ _ _ _ _ _ H)|].
  cbn [request_sent req_method req_endpoint req_url req_params req_json].
  repeat split.
  unfold url_of.
  destruct (set_api_key_header_fields (current_client w)
              (lit "cart/items/insert")) as (-> & _).
  reflexivity.
Qed.

(** C5.  With a keyword that is neither empty nor whitespace only,
    [search_by_keyword] passes validation and sends its POST to
    "search/keyword" for every [records] from 1 to 50; [records = 51] and
    [records = 0] are rejected, each with its own message. *)
Theorem search_by_keyword_records_bounds
  (keyword : str) (start_record : option Z) (w : world) :
  is_blank keyword = false ->
  (forall records, 1 <= default 50 records <= 50 ->
     dispatches (search_by_keyword keyword records start_record) w
       (lit "Failed to search by keyword: ") POST (lit "search/keyword")
       None
       (Some (VDict [(lit "SearchByKeywordRequest",
                      VDict [(lit "keyword", VStr keyword);
                             (lit "records", VInt (default 50 records));
                             (lit "startingRecord",
                              VInt (default 0 start_record))])])))
  /\ rejects (search_by_keyword keyword (Some 51) start_record) w
       (lit "Maximum 50 records per request (API limit)")
  /\ rejects (search_by_keyword keyword (Some 0) start_record) w
       (lit "Records must be at least 1")
  /\ lit "Maximum 50 records per request (API limit)"
     <> lit "Records must be at least 1".
Proof.
  intros Hk. split; [|split; [|split]].
  - intros records Hr. now apply search_by_keyword_dispatches.
  - unfold rejects, search_by_keyword. rewrite truthy_strip, Hk. reflexivity.
  - unfold rejects, search_by_keyword. rewrite truthy_strip, Hk. reflexivity.
  - vm_compute. discriminate.
Qed.

Lemma search_by_keyword_records_bounds_witness :
  is_blank (lit "Arduino") = false
  /\ rejects (search_by_keyword (lit "Arduino") (Some 51) None) sample_world
       (lit "Maximum 50 records per request (API limit)")
  /\ (forall message,
        ~ rejects (search_by_keyword (lit "Arduino") (Some 10) None)
            sample_world message).
Proof.
  split; [reflexivity|].
  destruct (search_by_keyword_records_bounds (lit "Arduino") None
              sample_world eq_refl) as (Hin & Hhi & _).
  split; [exact Hhi|].
  apply (dispatches_passes_validation _ _ _ _ _ _ _
           (Hin (Some 10) ltac:(simpl; lia))).
Defined.

Lemma dispatch_failures_are_wrapped_witness :
  fst (run_tool (GetOrder (lit "WEB12345678")) timeout_world)
  = inl (Exc RuntimeError (lit "Failed to get order: Read timed out.")
           (Some (Exc Timeout (lit "Read timed out.") None))).
Proof.
  destruct (dispatch_failures_are_wrapped (GetOrder (lit "WEB12345678"))
              timeout_world) as [[[message Hrej] | (req & _ & Hraise & _)] _].
  - exfalso. unfold rejects in Hrej. vm_compute in Hrej. discriminate Hrej.
  - exact (Hraise (Exc Timeout (lit "Read timed out.") None) eq_refl).
Defined.

(** C6, as the code has it.  With a cart key and a part number that are
    neither empty nor whitespace only: [update_cart_item] passes
    validation with quantity 0 and sends its request, and rejects every
    negative quantity; [add_to_cart] rejects every quantity below 1 and
    passes validation from 1 on. *)
Theorem cart_quantity_bounds
  (cart_key mouser_part_number : str) (w : world) :
  is_blank cart_key = false ->
  is_blank mouser_part_number = false ->
  dispatches (update_cart_item cart_key mouser_part_number 0) w
    (lit "Failed to update cart item: ") POST (lit "cart/items/update") None
    (Some (VDict [(lit "CartKey", VStr cart_key);
                  (lit "CartItems",
                   VList [VDict [(lit "MouserPartNumber",
                                  VStr mouser_part_number);
                                 (lit "Quantity", VInt 0)]])]))
  /\ (forall quantity, quantity < 0 ->
        rejects (update_cart_item cart_key mouser_part_number quantity) w
          (lit "Quantity cannot be negative"))
  /\ (forall quantity customer, quantity < 1 ->
        rejects (add_to_cart cart_key mouser_part_number quantity customer)
          w (lit "Quantity must be at least 1"))
  /\ (forall quantity customer, 1 <= quantity ->
        dispatches
          (add_to_cart cart_key mouser_part_number quantity customer) w
          (lit "Failed to add item to cart: ") POST
          (lit "cart/items/insert") None
          (Some (VDict [(lit "CartKey", VStr cart_key);
                        (lit "CartItems",
                         VList [VDict [(lit "MouserPartNumber",
                                        VStr mouser_part_number);
                                       (lit "Quantity", VInt quantity);
                                       (lit "CustomerPartNumber",
                                        VStr (default (lit "")
                                                customer))]])]))).
Proof.
  intros Hk Hp. split; [|split; [|split]].
  - apply update_cart_item_dispatches; [assumption | assumption | lia].
  - intros quantity Hq. unfold rejects, update_cart_item.
    decide_checks. reflexivity.
  - intros quantity customer Hq. unfold rejects, add_to_cart.
    decide_checks. reflexivity.
  - intros quantity customer Hq. now apply add_to_cart_dispatches.
Qed.

Lemma cart_quantity_bounds_witness :
  is_blank (lit "k1") = false
  /\ is_blank (lit "595-X") = false
  /\ (forall message,
        ~ rejects (update_cart_item (lit "k1") (lit "595-X") 0) sample_world
            message)
  /\ rejects (update_cart_item (lit "k1") (lit "595-X") (-1)) sample_world
       (lit "Quantity cannot be negative")
  /\ rejects (add_to_cart (lit "k1") (lit "595-X") 0 None) sample_world
       (lit "Quantity must be at least 1").
Proof.
  split; [reflexivity|]. split; [reflexivity|].
  destruct (cart_quantity_bounds (lit "k1") (lit "595-X") sample_world
              eq_refl eq_refl) as (Hzero & Hneg & Hadd & _).
  split; [exact (dispatches_passes_validation _ _ _ _ _ _ _ Hzero)|].
  split; [apply Hneg; lia | apply Hadd; lia].
Defined.

(** C6, as it is worded, fails: a cart key of one space is not empty, and
    [update_cart_item] with quantity 0 is rejected for it. *)
Lemma cart_quantity_nonempty_key_counterexample :
  lit " " <> []
  /\ lit "595-X" <> []
  /\ rejects (update_cart_item (lit " ") (lit "595-X") 0) sample_world
       (lit "Cart key cannot be empty").
Proof.
  split; [discriminate|]. split; [discriminate|].
  unfold rejects. reflexivity.
Qed.

(** C7.  [list_order_history] rejects every [days] below 1, leaving the
    state untouched, and from 1 on it passes validation and sends one POST
    to "orderhistory/query" with the body [{"Days": days}]. *)
Theorem list_order_history_days_bound (days : option Z) (w : world) :
  (default 30 days < 1 ->
   rejects (list_order_history days) w (lit "Days must be at least 1"))
  /\ (1 <= default 30 days ->
      dispatches (list_order_history days) w
        (lit "Failed to get order history: ") POST
        (lit "orderhistory/query") None
        (Some (VDict [(lit "Days", VInt (default 30 days))]))).
Proof.
  split; intros Hd.
  - unfold rejects, list_order_history. decide_checks. reflexivity.
  - now apply list_order_history_dispatches.
Qed.

Lemma list_order_history_days_bound_witness :
  rejects (list_order_history (Some 0)) sample_world
    (lit "Days must be at least 1")
  /\ wire (net (snd (list_order_history (Some 7) sample_world)))
     = [request_sent POST (lit "orderhistory/query") None
          (Some (VDict [(lit "Days", VInt 7)])) sample_world]
  /\ wire (net (snd (list_order_history None sample_world)))
     = [request_sent POST (lit "orderhistory/query") None
          (Some (VDict [(lit "Days", VInt 30)])) sample_world].
Proof.
  split; [|split].
  - apply (proj1 (list_order_history_days_bound (Some 0) sample_world)).
    simpl. lia.
  - apply (dispatches_wire _ _ _ _ _ _ _
             (proj2 (list_order_history_days_bound (Some 7) sample_world)
                ltac:(simpl; lia))).
  - apply (dispatches_wire _ _ _ _ _ _ _
             (proj2 (list_order_history_days_bound None sample_world)
                ltac:(simpl; lia))).
Defined.



(** C9.  Whatever the verb and whatever the session held before, the
    request a method call sends carries the SearchApi-Key header only
    when the endpoint contains "/search/" and the part key is set, and
    the OrderApi-Key header only when it does not and the order key is
    set: never both, and neither when the selected key is empty.  In two
    calls in a row the key header of the first does not reach the second
    request when the second endpoint selects the other key. *)
Theorem key_headers_are_reset
  (verb : http_method) (endpoint : str)
  (params : option (list (str * str))) (json : option value)
  (self : APIClient) (net : network) :
  (let '(_, self', net') := perform verb endpoint params json self net in
   exists req,
     wire net' = wire net ++ [req]
     /\ req_method req = verb
     /\ req_headers req = session_headers self'
     /\ req_headers req !! SearchApi_Key
        = (if contains (lit "/search/") endpoint
              && truthy (part_api_key self)
           then Some (part_api_key self) else None)
     /\ req_headers req !! OrderApi_Key
        = (if negb (contains (lit "/search/") endpoint)
              && truthy (order_api_key self)
           then Some (order_api_key self) else None)
     /\ ~ (is_Some (req_headers req !! SearchApi_Key)
           /\ is_Some (req_headers req !! OrderApi_Key))
     /\ ((if contains (lit "/search/") endpoint
          then part_api_key self else order_api_key self) = [] ->
         req_headers req !! SearchApi_Key = None
         /\ req_headers req !! OrderApi_Key = None))
  /\ (forall verb2 endpoint2 params2 json2,
        let '(_, self1, net1) :=
          perform verb endpoint params json self net in
        let '(_, self2, net2) :=
          perform verb2 endpoint2 params2 json2 self1 net1 in
        exists req1 req2,
          wire net2 = wire net ++ [req1; req2]
          /\ (contains (lit "/search/") endpoint2 = false ->
              req_headers req2 !! SearchApi_Key = None)
          /\ (contains (lit "/search/") endpoint2 = true ->
              req_headers req2 !! OrderApi_Key = None)).
Proof.
  split.
  - rewrite perform_spec. cbv zeta. eexists. split; [reflexivity|].
    cbn [req_headers req_method].
    rewrite set_api_key_header_search, set_api_key_header_order.
    split; [reflexivity|]. split; [reflexivity|]. split; [reflexivity|].
    split; [reflexivity|].
    destruct (contains (lit "/search/") endpoint); cbn [negb andb].
    + split.
      * intros [_ [x Hx]]. discriminate Hx.
      * intros ->. split; reflexivity.
    + split.
      * intros [[x Hx] _]. discriminate Hx.
      * intros ->. split; reflexivity.
  - intros verb2 endpoint2 params2 json2.
    rewrite perform_spec. cbv zeta. rewrite perform_spec. cbv zeta.
    do 2 eexists. split.
    + cbn [wire]. rewrite <- app_assoc. reflexivity.
    + cbn [req_headers].
      rewrite set_api_key_header_search, set_api_key_header_order.
      split; intros ->; reflexivity.
Qed.

(** C10, as the code has it.  With a keyword that is neither empty nor
    whitespace only and [records] from 1 to 50, [search_by_keyword]
    passes validation for every integer [start_record], negative ones
    included, and the JSON body of its POST holds that integer under
    "startingRecord" inside "SearchByKeywordRequest". *)
Theorem start_record_is_forwarded
  (keyword : str) (records : option Z) (start_record : Z) (w : world) :
  is_blank keyword = false ->
  1 <= default 50 records <= 50 ->
  dispatches (search_by_keyword keyword records (Some start_record)) w
    (lit "Failed to search by keyword: ") POST (lit "search/keyword") None
    (Some (VDict [(lit "SearchByKeywordRequest",
                   VDict [(lit "keyword", VStr keyword);
                          (lit "records", VInt (default 50 records));
                          (lit "startingRecord", VInt start_record)])])).
Proof.
  intros Hk Hr.
  exact (search_by_keyword_dispatches keyword records (Some start_record) w
           Hk Hr).
Qed.

Lemma start_record_is_forwarded_witness :
  is_blank (lit "Arduino") = false
  /\ 1 <= default 50 (Some 10) <= 50
  /\ wire (net (snd (search_by_keyword (lit "Arduino") (Some 10) (Some (-3))
                       sample_world)))
     = [request_sent POST (lit "search/keyword") None
          (Some (VDict [(lit "SearchByKeywordRequest",
                         VDict [(lit "keyword", VStr (lit "Arduino"));
                                (lit "records", VInt 10);
                                (lit "startingRecord", VInt (-3))])]))
          sample_world].
Proof.
  split; [reflexivity|]. split; [simpl; lia|].
  apply (dispatches_wire _ _ _ _ _ _ _
           (start_record_is_forwarded (lit "Arduino") (Some 10) (-3)
              sample_world eq_refl ltac:(simpl; lia))).
Defined.

(** C10, as it is worded, fails: a keyword of one space is not empty, and
    the call is rejected for it whatever [start_record] is. *)
Lemma start_record_nonempty_keyword_counterexample :
  lit " " <> []
  /\ 1 <= 10 <= 50
  /\ rejects (search_by_keyword (lit " ") (Some 10) (Some 5)) sample_world
       (lit "Keyword cannot be empty").
Proof.
  split; [discriminate|]. split; [lia|].
  unfold rejects. reflexivity.
Qed.

(** * Further properties of the client and of the tools *)

(** ** The session headers *)

Lemma other_headers_differ :
  Content_Type <> SearchApi_Key /\ Content_Type <> OrderApi_Key.
Proof. split; vm_compute; discriminate. Qed.

Lemma APIClient_eq (c1 c2 : APIClient) :
  base_url c1 = base_url c2 -> timeout c1 = timeout c2 ->
  part_api_key c1 = part_api_key c2 ->
  order_api_key c1 = order_api_key c2 -> debug c1 = debug c2 ->
  session_headers c1 = session_headers c2 -> c1 = c2.
Proof. destruct c1, c2; simpl; congruence. Qed.

Lemma set_api_key_header_debug (self : APIClient) (endpoint : str) :
  debug (_set_api_key_header self endpoint) = debug self.
Proof.
  unfold _set_api_key_header.
  destruct (contains (lit "/search/") endpoint);
    [destruct (truthy (part_api_key self))
    |destruct (truthy (order_api_key self))];
    reflexivity.
Qed.

(** Setting the key header for one endpoint and then for another leaves
    the client as setting it for the second alone does. *)
Lemma set_api_key_header_twice (self : APIClient) (e1 e2 : str) :
  _set_api_key_header (_set_api_key_header self e1) e2
  = _set_api_key_header self e2.
Proof.
  destruct (set_api_key_header_fields self e1) as (Hb1 & Ht1 & Hp1 & Ho1).
  destruct (set_api_key_header_fields self e2) as (Hb2 & Ht2 & Hp2 & Ho2).
  destruct (set_api_key_header_fields (_set_api_key_header self e1) e2)
    as (Hb & Ht & Hp & Ho).
  apply APIClient_eq; try congruence.
  - rewrite !set_api_key_header_debug. reflexivity.
  - apply map_eq. intros name.
    destruct (decide (name = SearchApi_Key)) as [->|Hs].
    { rewrite !set_api_key_header_search, Hp1. reflexivity. }
    destruct (decide (name = OrderApi_Key)) as [->|Ho'].
    { rewrite !set_api_key_header_order, Ho1. reflexivity. }
    rewrite !set_api_key_header_other by assumption. reflexivity.
Qed.

(** ** Validation does not look at the state *)

(** Names the payload of a validated operation from its method call. *)
Ltac name_payload :=
  lazymatch goal with
  | |- context [call _ (post ?e ?j)] => exists e, None, j
  | |- context [call _ (get ?e ?p)] => exists e, p, None
  end.

(** Whether a tool call is rejected, with which message, and otherwise
    which request it describes, is settled by its arguments alone.  The
    endpoints are written without a leading slash and without "/search/";
    [get_cart] is the one GET and carries query parameters, all others
    are POSTs with a JSON body. *)
Lemma run_tool_uniform (c : tool_call) :
  (accepts c = false
   /\ exists message, forall w, rejects (run_tool c) w message)
  \/ (accepts c = true
      /\ exists endpoint params json,
           (forall w,
              dispatches (run_tool c) w (failure_label c)
                (match c with GetCart _ => GET | _ => POST end)
                endpoint params json)
           /\ contains (lit "/search/") endpoint = false
           /\ lstrip_chars (lit "/") endpoint = endpoint
           /\ (match c with
               | GetCart _ => json = None /\ params <> None
               | _ => params = None /\ json <> None
               end)).
Proof.
  destruct c; cbn [run_tool failure_label accepts];
    unfold search_by_keyword, search_by_part_number, get_cart, add_to_cart,
      update_cart_item, get_order_options, get_order, list_order_history;
    decide_checks;
    repeat match goal with
    | |- context [Z.leb ?a ?b] => destruct (Z.leb_spec a b); try lia
    end;
    cbn [negb andb];
    solve [ left; split; [reflexivity|]; eexists; intros w; reflexivity
          | right; split; [reflexivity|]; name_payload;
            split; [intros w; by_guarded_call|];
            split; [reflexivity|]; split; [reflexivity|];
            split; [reflexivity | discriminate] ].
Qed.

Lemma current_client_after_request (req : request) (endpoint : str)
  (w : world) :
  current_client (after_request req endpoint w)
  = _set_api_key_header (current_client w) endpoint.
Proof. reflexivity. Qed.

Lemma url_of_set_api_key_header (self : APIClient) (e endpoint : str) :
  url_of (_set_api_key_header self e) endpoint = url_of self endpoint.
Proof.
  unfold url_of. destruct (set_api_key_header_fields self e) as (-> & _).
  reflexivity.
Qed.

(** A second request to the same endpoint is the same request. *)
Lemma request_sent_again (verb : http_method) (endpoint : str)
  (params : option (list (str * str))) (json : option value)
  (req : request) (w : world) :
  request_sent verb endpoint params json (after_request req endpoint w)
  = request_sent verb endpoint params json w.
Proof.
  unfold request_sent. rewrite current_client_after_request.
  rewrite set_api_key_header_twice. reflexivity.
Qed.

(** ** The client *)

(** X1.  The header dictionary of the session keeps nothing of a method
    call but the key header of the last one: after two method calls in a
    row, whatever their verbs, endpoints and payloads, the headers of the
    session are those the second call alone would have left, and the
    URL, timeout, keys and debug flag of the client are those it started
    with. *)
Theorem session_keeps_last_call_only
  (verb1 verb2 : http_method) (e1 e2 : str)
  (params1 params2 : option (list (str * str)))
  (json1 json2 : option value) (self : APIClient) (net : network) :
  let '(_, self1, net1) := perform verb1 e1 params1 json1 self net in
  let '(_, self12, _) := perform verb2 e2 params2 json2 self1 net1 in
  let '(_, self2, _) := perform verb2 e2 params2 json2 self net in
  session_headers self12 = session_headers self2
  /\ base_url self12 = base_url self
  /\ timeout self12 = timeout self
  /\ part_api_key self12 = part_api_key self
  /\ order_api_key self12 = order_api_key self
  /\ debug self12 = debug self.
Proof.
  rewrite !perform_spec. cbv zeta.
  rewrite set_api_key_header_twice.
  destruct (set_api_key_header_fields self e2) as (Hb & Ht & Hp & Ho).
  rewrite set_api_key_header_debug. auto 10.
Qed.

Lemma lstrip_chars_slashes (n : nat) (e : str) :
  lstrip_chars (lit "/") (slashes n ++ e) = lstrip_chars (lit "/") e.
Proof. induction n as [|n IH]; [reflexivity | exact IH]. Qed.

Lemma lstrip_chars_split (e : str) :
  exists n,
    e = slashes n ++ lstrip_chars (lit "/") e
    /\ startswith (lit "/") (lstrip_chars (lit "/") e) = false.
Proof.
  induction e as [|c e (n & He & Hs)].
  - exists 0%nat. split; reflexivity.
  - destruct (N.eqb_spec c 47) as [->|Hc].
    + exists (S n). split; [|exact Hs].
      change (lstrip_chars (lit "/") (47%N :: e))
        with (lstrip_chars (lit "/") e).
      unfold slashes in *. cbn [repeat app]. f_equal. exact He.
    + exists 0%nat.
      assert (lstrip_chars (lit "/") (c :: e) = c :: e) as ->.
      { unfold lstrip_chars. cbn [drop_while]. change (lit "/") with [47%N].
        cbn [existsb]. destruct (N.eqb_spec c 47); [contradiction|].
        reflexivity. }
      split; [reflexivity|].
      change (lit "/") with [47%N]. cbn [startswith].
      destruct (N.eqb_spec 47 c); [congruence | reflexivity].
Qed.

(** X2.  The URL of a request is the base URL, one slash, and the
    endpoint without its leading slashes: an endpoint is some slashes
    followed by a rest that does not start with a slash, the URL is built
    from the rest, and it is the same however many slashes precede the
    rest.  Nothing else of the endpoint is rewritten, and the base URL is
    taken as it is. *)
Theorem url_drops_leading_slashes (self : APIClient) (endpoint : str) :
  exists n rest,
    endpoint = slashes n ++ rest
    /\ startswith (lit "/") rest = false
    /\ url_of self endpoint = base_url self ++ lit "/" ++ rest
    /\ (forall m, url_of self (slashes m ++ rest) = url_of self endpoint).
Proof.
  destruct (lstrip_chars_split endpoint) as (n & He & Hs).
  exists n, (lstrip_chars (lit "/") endpoint).
  split; [exact He|]. split; [exact Hs|]. split; [reflexivity|].
  intros m. unfold url_of. rewrite lstrip_chars_slashes.
  rewrite He at 2. rewrite lstrip_chars_slashes. reflexivity.
Qed.

(** X3.  The key is chosen on the endpoint as the caller wrote it, the
    URL on the endpoint without its leading slashes.  So for an endpoint
    that begins with "search/", writing it with a leading slash gives the
    same URL but selects the part key and never the order key; written
    without the slash, and with no "/search/" further inside, it selects
    the order key. *)
Theorem leading_slash_selects_part_key
  (verb : http_method) (rest : str)
  (params : option (list (str * str))) (json : option value)
  (self : APIClient) (net : network) :
  let e := lit "search/" ++ rest in
  let '(_, _, net1) := perform verb (lit "/" ++ e) params json self net in
  let '(_, _, net2) := perform verb e params json self net in
  exists req1 req2,
    wire net1 = wire net ++ [req1]
    /\ wire net2 = wire net ++ [req2]
    /\ req_url req1 = req_url req2
    /\ req_headers req1 !! SearchApi_Key
       = (if truthy (part_api_key self)
          then Some (part_api_key self) else None)
    /\ req_headers req1 !! OrderApi_Key = None
    /\ (contains (lit "/search/") e = false ->
        req_headers req2 !! SearchApi_Key = None
        /\ req_headers req2 !! OrderApi_Key
           = (if truthy (order_api_key self)
              then Some (order_api_key self) else None)).
Proof.
  cbv zeta. rewrite !perform_spec. cbv zeta.
  do 2 eexists. split; [reflexivity|]. split; [reflexivity|].
  cbn [req_url req_headers].
  rewrite !url_of_set_api_key_header.
  rewrite !set_api_key_header_search, !set_api_key_header_order.
  assert (contains (lit "/search/") (lit "/" ++ lit "search/" ++ rest) = true)
    as -> by reflexivity.
  split; [reflexivity|]. split; [reflexivity|]. split; [reflexivity|].
  intros ->. split; reflexivity.
Qed.

Lemma leading_slash_selects_part_key_witness :
  let '(_, _, net1) :=
    post (lit "/search/keyword") None (current_client sample_world)
      (net sample_world) in
  let '(_, _, net2) :=
    post (lit "search/keyword") None (current_client sample_world)
      (net sample_world) in
  exists req1 req2,
    wire net1 = [req1] /\ wire net2 = [req2]
    /\ req_url req1 = req_url req2
    /\ req_headers req1 !! SearchApi_Key = Some (lit "part-key")
    /\ req_headers req1 !! OrderApi_Key = None
    /\ req_headers req2 !! SearchApi_Key = None
    /\ req_headers req2 !! OrderApi_Key = Some (lit "order-key").
Proof.
  pose proof (leading_slash_selects_part_key POST (lit "keyword") None None
                (current_client sample_world) (net sample_world)) as H.
  cbv zeta in H.
  change (lit "/" ++ lit "search/" ++ lit "keyword")
    with (lit "/search/keyword") in H.
  change (lit "search/" ++ lit "keyword") with (lit "search/keyword") in H.
  change (perform POST (lit "/search/keyword") None None)
    with (post (lit "/search/keyword") None) in H.
  change (perform POST (lit "search/keyword") None None)
    with (post (lit "search/keyword") None) in H.
  destruct (post (lit "/search/keyword") None (current_client sample_world)
              (net sample_world)) as [[r1 c1] net1].
  destruct (post (lit "search/keyword") None (current_client sample_world)
              (net sample_world)) as [[r2 c2] net2].
  destruct H as (req1 & req2 & H1 & H2 & Hu & Hs1 & Ho1 & Hrest).
  destruct (Hrest eq_refl) as (Hs2 & Ho2).
  exists req1, req2. auto 10.
Defined.

(** ** The singleton *)

(** X4.  [get_client()] builds the client at most once and without any
    I/O: it returns the object that the state holds afterwards, a second
    call returns the same object and changes nothing, and neither the
    network nor the environment is touched.  A client built on the spot
    holds the configured URL, timeout and keys, and its session has the
    JSON content type and, for the rest, the headers of a fresh
    session. *)
Theorem get_client_builds_once (w : world) :
  let '(r, w1) := get_client w in
  r = inr (current_client w)
  /\ client_instance w1 = Some (current_client w)
  /\ get_client w1 = (r, w1)
  /\ net w1 = net w
  /\ environ w1 = environ w
  /\ (client_instance w = None ->
      base_url (current_client w) = cfg_api_base_url (environ w)
      /\ timeout (current_client w) = cfg_timeout (environ w)
      /\ part_api_key (current_client w) = cfg_part_api_key (environ w)
      /\ order_api_key (current_client w) = cfg_order_api_key (environ w)
      /\ session_headers (current_client w) !! Content_Type
         = Some (lit "application/json")
      /\ (forall name, name <> Content_Type ->
            session_headers (current_client w) !! name
            = fresh_session_headers w !! name)).
Proof.
  rewrite get_client_spec. cbn [client_instance net environ].
  split; [reflexivity|]. split; [reflexivity|].
  split; [rewrite get_client_spec; reflexivity|].
  split; [reflexivity|]. split; [reflexivity|].
  intros Hnone. unfold current_client. rewrite Hnone.
  cbn [APIClient_init base_url timeout part_api_key order_api_key
         session_headers].
  repeat split; try reflexivity.
  - apply lookup_insert_eq.
  - intros name Hname. apply lookup_insert_ne. congruence.
Qed.

Lemma get_client_builds_once_witness :
  client_instance (snd (get_client sample_world))
  = Some (current_client sample_world)
  /\ part_api_key (current_client sample_world) = lit "part-key"
  /\ session_headers (current_client sample_world) !! SearchApi_Key = None.
Proof.
  pose proof (get_client_builds_once sample_world) as H.
  destruct (get_client sample_world) as [r w1].
  destruct H as (_ & Hc & _ & _ & _ & Hnew).
  destruct (Hnew eq_refl) as (_ & _ & Hp & _ & _ & Hother).
  split; [exact Hc|]. split; [exact Hp|].
  rewrite Hother; [reflexivity | vm_compute; discriminate].
Defined.

Lemma current_client_set_environ (cfg : config) (w : world) (c : APIClient) :
  client_instance w = Some c ->
  current_client (set_environ cfg w) = current_client w.
Proof. intros H. unfold current_client, set_environ. cbn. now rewrite H. Qed.

(** X5.  The environment is read when the client is built and not again:
    once the singleton exists, a change of the configuration has no
    effect on any tool.  The call returns or raises the same, sends the
    same request and leaves the same client behind as it would have
    without the change. *)
Theorem environment_is_read_once
  (c : tool_call) (w : world) (cfg : config) (client : APIClient) :
  client_instance w = Some client ->
  get_client (set_environ cfg w) = (inr client, set_environ cfg w)
  /\ fst (run_tool c (set_environ cfg w)) = fst (run_tool c w)
  /\ snd (run_tool c (set_environ cfg w)) = set_environ cfg (snd (run_tool c w)).
Proof.
  intros Hc. split.
  { unfold get_client, set_environ. cbn. rewrite Hc. reflexivity. }
  destruct (run_tool_uniform c)
    as [(_ & message & Hrej) | (_ & endpoint & params & json & Hd & _)].
  - rewrite (Hrej w), (Hrej (set_environ cfg w)). split; reflexivity.
  - pose proof (Hd w) as H1. pose proof (Hd (set_environ cfg w)) as H2.
    unfold dispatches in H1, H2. cbv zeta in H1, H2. rewrite H1, H2.
    unfold request_sent, answer_to, after_request.
    rewrite (current_client_set_environ cfg w client Hc).
    split; reflexivity.
Qed.

Lemma environment_is_read_once_witness :
  fst (run_tool (GetCart (lit "abc-123"))
         (set_environ (Config [] [] (lit "http://localhost") 1 true)
            (snd (get_client sample_world))))
  = fst (run_tool (GetCart (lit "abc-123")) (snd (get_client sample_world))).
Proof.
  exact (proj1 (proj2 (environment_is_read_once (GetCart (lit "abc-123"))
                         (snd (get_client sample_world))
                         (Config [] [] (lit "http://localhost") 1 true)
                         (current_client sample_world) eq_refl))).
Defined.

(** X6.  A tool call leaves the environment, the defaults of new
    sessions and the upstream service alone, keeps the requests sent
    before it and adds at most one.  Either it changes nothing at all, or
    it leaves a client whose URL, timeout, keys and debug flag are those
    of the client it started from. *)
Theorem tool_call_frame (c : tool_call) (w : world) :
  let w' := snd (run_tool c w) in
  environ w' = environ w
  /\ fresh_session_headers w' = fresh_session_headers w
  /\ upstream (net w') = upstream (net w)
  /\ (exists sent,
        wire (net w') = wire (net w) ++ sent /\ (length sent <= 1)%nat)
  /\ (w' = w
      \/ exists client',
           client_instance w' = Some client'
           /\ base_url client' = base_url (current_client w)
           /\ timeout client' = timeout (current_client w)
           /\ part_api_key client' = part_api_key (current_client w)
           /\ order_api_key client' = order_api_key (current_client w)
           /\ debug client' = debug (current_client w)).
Proof.
  cbv zeta.
  destruct (run_tool_uniform c)
    as [(_ & message & Hrej) | (_ & endpoint & params & json & Hd & _)].
  - pose proof (Hrej w) as E. unfold rejects in E.
    apply (f_equal snd) in E. cbn [snd] in E. rewrite !E.
    split; [reflexivity|]. split; [reflexivity|]. split; [reflexivity|].
    split; [|left; reflexivity].
    exists []. rewrite app_nil_r. split; [reflexivity | simpl; lia].
  - pose proof (Hd w) as H. unfold dispatches in H. cbv zeta in H.
    apply (f_equal snd) in H. cbn [snd] in H. rewrite !H.
    cbn [after_request environ fresh_session_headers net upstream wire
           client_instance].
    split; [reflexivity|]. split; [reflexivity|]. split; [reflexivity|].
    split; [eexists; split; [reflexivity | simpl; lia]|].
    right. eexists. split; [reflexivity|].
    destruct (set_api_key_header_fields (current_client w) endpoint)
      as (Hb & Ht & Hp & Ho).
    rewrite set_api_key_header_debug. auto 10.
Qed.

(** X7.  Nothing is cached: a tool call that passes validation, made
    twice in a row, sends two requests, the second with the verb,
    endpoint, URL, query parameters, JSON body, timeout, content type and
    key headers of the first, and the second call returns or raises what
    the service answers to the second request. *)
Theorem repeated_call_sends_again (c : tool_call) (w : world) :
  (exists message, rejects (run_tool c) w message)
  \/ (exists req1 req2,
        let w1 := snd (run_tool c w) in
        let w2 := snd (run_tool c w1) in
        let n := length (wire (net w)) in
        wire (net w2) = wire (net w) ++ [req1; req2]
        /\ req_method req2 = req_method req1
        /\ req_endpoint req2 = req_endpoint req1
        /\ req_url req2 = req_url req1
        /\ req_params req2 = req_params req1
        /\ req_json req2 = req_json req1
        /\ req_timeout req2 = req_timeout req1
        /\ req_headers req2 !! Content_Type
           = req_headers req1 !! Content_Type
        /\ req_headers req2 !! SearchApi_Key
           = req_headers req1 !! SearchApi_Key
        /\ req_headers req2 !! OrderApi_Key
           = req_headers req1 !! OrderApi_Key
        /\ fst (run_tool c w)
           = wrap_failure (failure_label c)
               (checked_json (upstream (net w) n req1))
        /\ fst (run_tool c w1)
           = wrap_failure (failure_label c)
               (checked_json (upstream (net w) (S n) req2))).
Proof.
  destruct (run_tool_uniform c)
    as [(_ & message & Hrej) | (_ & endpoint & params & json & Hd & _)];
    [left; exists message; apply Hrej | right].
  set (verb := match c with GetCart _ => GET | _ => POST end) in *.
  exists (request_sent verb endpoint params json w),
    (request_sent verb endpoint params json w). cbv zeta.
  pose proof (Hd w) as H1. unfold dispatches in H1. cbv zeta in H1.
  rewrite H1. cbn [fst snd].
  pose proof (Hd (after_request (request_sent verb endpoint params json w)
                    endpoint w)) as H2.
  unfold dispatches in H2. cbv zeta in H2.
  rewrite request_sent_again in H2. rewrite H2. cbn [fst snd].
  split; [cbn [after_request net wire]; rewrite <- app_assoc; reflexivity|].
  do 9 (split; [reflexivity|]).
  split; [reflexivity|].
  unfold answer_to. cbn [after_request net wire upstream].
  rewrite length_app, Nat.add_comm. reflexivity.
Qed.

(** ** The remaining operations *)

(** X8.  [get_cart] rejects a blank cart key and otherwise sends exactly
    one request: a GET to the URL of "cart" under the base URL, with the
    cart key, as it was given, as the query parameter [cartKey], and
    without a JSON body.  The request carries the order key when there is
    one and no part key. *)
Theorem get_cart_request (cart_key : str) (w : world) :
  if is_blank cart_key then
    rejects (get_cart cart_key) w (lit "Cart key cannot be empty")
  else
    dispatches (get_cart cart_key) w (lit "Failed to retrieve cart: ") GET
      (lit "cart") (Some [(lit "cartKey", cart_key)]) None
    /\ exists req,
         wire (net (snd (get_cart cart_key w))) = wire (net w) ++ [req]
         /\ req_method req = GET
         /\ req_url req = base_url (current_client w) ++ lit "/cart"
         /\ req_params req = Some [(lit "cartKey", cart_key)]
         /\ req_json req = None
         /\ req_timeout req = timeout (current_client w)
         /\ req_headers req !! SearchApi_Key = None
         /\ req_headers req !! OrderApi_Key
            = (if truthy (order_api_key (current_client w))
               then Some (order_api_key (current_client w)) else None).
Proof.
  destruct (is_blank cart_key) eqn:Hk.
  - unfold rejects, get_cart. decide_checks. reflexivity.
  - assert (dispatches (get_cart cart_key) w
              (lit "Failed to retrieve cart: ") GET (lit "cart")
              (Some [(lit "cartKey", cart_key)]) None) as H.
    { unfold get_cart. decide_checks. by_guarded_call. }
    split; [exact H|].
    eexists. split; [exact (dispatches_wire _ _ _ _ _ _ _ H)|].
    cbn [request_sent req_method req_url req_params req_json req_timeout
           req_headers].
    rewrite url_of_set_api_key_header.
    rewrite set_api_key_header_search, set_api_key_header_order.
    destruct (set_api_key_header_fields (current_client w) (lit "cart"))
      as (_ & -> & _).
    repeat split.
Qed.

(** X9.  [search_by_part_number] rejects a blank part number and
    otherwise sends one POST to "search/partnumber" whose body holds the
    part number, as it was given, under "mouserPartNumber" inside
    "SearchByPartRequest". *)
Theorem search_by_part_number_request (part_number : str) (w : world) :
  if is_blank part_number then
    rejects (search_by_part_number part_number) w
      (lit "Part number cannot be empty")
  else
    dispatches (search_by_part_number part_number) w
      (lit "Failed to search by part number: ") POST
      (lit "search/partnumber") None
      (Some (VDict [(lit "SearchByPartRequest",
                     VDict [(lit "mouserPartNumber", VStr part_number)])])).
Proof.
  destruct (is_blank part_number) eqn:Hp.
  - unfold rejects, search_by_part_number. decide_checks. reflexivity.
  - unfold search_by_part_number. decide_checks. by_guarded_call.
Qed.

(** X10.  [get_order_options] rejects a blank cart key and otherwise
    sends one POST to "order/options/query" with the body
    [{"CartKey": cart_key}]. *)
Theorem get_order_options_request (cart_key : str) (w : world) :
  if is_blank cart_key then
    rejects (get_order_options cart_key) w (lit "Cart key cannot be empty")
  else
    dispatches (get_order_options cart_key) w
      (lit "Failed to get order options: ") POST
      (lit "order/options/query") None
      (Some (VDict [(lit "CartKey", VStr cart_key)])).
Proof.
  destruct (is_blank cart_key) eqn:Hk.
  - unfold rejects, get_order_options. decide_checks. reflexivity.
  - unfold get_order_options. decide_checks. by_guarded_call.
Qed.

(** X11.  [get_order] rejects a blank order number and otherwise sends
    one POST to "order/get" with the body [{"OrderNumber": order_number}];
    the order number is not checked further and goes out as given. *)
Theorem get_order_request (order_number : str) (w : world) :
  if is_blank order_number then
    rejects (get_order order_number) w (lit "Order number cannot be empty")
  else
    dispatches (get_order order_number) w (lit "Failed to get order: ") POST
      (lit "order/get") None
      (Some (VDict [(lit "OrderNumber", VStr order_number)])).
Proof.
  destruct (is_blank order_number) eqn:Hn.
  - unfold rejects, get_order. decide_checks. reflexivity.
  - unfold get_order. decide_checks. by_guarded_call.
Qed.

(** X12.  The string arguments are checked before the numbers, the cart
    key before the part number: a blank keyword or cart key is what the
    caller is told about even when the number is out of range as well,
    and a blank part number is reported only when the cart key is fine. *)
Theorem string_checks_come_first
  (s other : str) (n : Z) (records start_record : option Z)
  (customer : option str) (w : world) :
  is_blank s = true ->
  rejects (search_by_keyword s records start_record) w
    (lit "Keyword cannot be empty")
  /\ rejects (add_to_cart s other n customer) w
       (lit "Cart key cannot be empty")
  /\ rejects (update_cart_item s other n) w (lit "Cart key cannot be empty")
  /\ (is_blank other = false ->
      rejects (add_to_cart other s n customer) w
        (lit "Mouser part number cannot be empty")
      /\ rejects (update_cart_item other s n) w
           (lit "Mouser part number cannot be empty")).
Proof.
  intros Hs. unfold rejects, search_by_keyword, add_to_cart, update_cart_item.
  rewrite !truthy_strip, Hs. cbn [negb].
  split; [reflexivity|]. split; [reflexivity|]. split; [reflexivity|].
  intros ->. cbn [negb]. split; reflexivity.
Qed.

Lemma string_checks_come_first_witness :
  rejects (search_by_keyword (lit " ") (Some 500) None) sample_world
    (lit "Keyword cannot be empty")
  /\ rejects (add_to_cart (lit "k1") (lit " ") (-4) None) sample_world
       (lit "Mouser part number cannot be empty").
Proof.
  destruct (string_checks_come_first (lit " ") (lit "k1") (-4) (Some 500)
              None None sample_world eq_refl) as (Hk & _ & _ & Hpart).
  split; [exact Hk | exact (proj1 (Hpart eq_refl))].
Defined.

(** X13.  The tools use two verbs only: the request of [get_cart] is a
    GET with query parameters and no JSON body, the request of every
    other tool is a POST with a JSON body and no query parameters.  No
    tool sends a PUT or a DELETE. *)
Theorem tools_use_get_and_post (c : tool_call) (w : world) :
  (exists message, rejects (run_tool c) w message)
  \/ (exists req,
        wire (net (snd (run_tool c w))) = wire (net w) ++ [req]
        /\ match c with
           | GetCart _ =>
               req_method req = GET
               /\ req_json req = None /\ req_params req <> None
           | _ =>
               req_method req = POST
               /\ req_params req = None /\ req_json req <> None
           end).
Proof.
  destruct (run_tool_uniform c)
    as [(_ & message & Hrej)
       | (_ & endpoint & params & json & Hd & _ & _ & Hshape)];
    [left; exists message; apply Hrej | right].
  eexists. split; [exact (dispatches_wire _ _ _ _ _ _ _ (Hd w))|].
  cbn [request_sent req_method req_json req_params].
  destruct c; destruct Hshape; auto.
Qed.

(** X14.  Validation is a test on the arguments alone: in every state a
    tool call whose required strings are not blank and whose numbers are
    within bounds sends exactly one request, and every other call is
    rejected with a [ValueError] and changes nothing. *)
Theorem accepts_decides_validation (c : tool_call) (w : world) :
  if accepts c then
    (exists req, wire (net (snd (run_tool c w))) = wire (net w) ++ [req])
    /\ (forall message, ~ rejects (run_tool c) w message)
  else
    exists message, rejects (run_tool c) w message.
Proof.
  destruct (run_tool_uniform c)
    as [(-> & message & Hrej) | (-> & endpoint & params & json & Hd & _)].
  - exists message. apply Hrej.
  - split.
    + eexists. exact (dispatches_wire _ _ _ _ _ _ _ (Hd w)).
    + exact (dispatches_passes_validation _ _ _ _ _ _ _ (Hd w)).
Qed.

(** ** Sequences of tool calls *)

Lemma current_client_of_config (w : world) :
  client_of_config (environ w) w ->
  base_url (current_client w) = cfg_api_base_url (environ w)
  /\ timeout (current_client w) = cfg_timeout (environ w)
  /\ part_api_key (current_client w) = cfg_part_api_key (environ w)
  /\ order_api_key (current_client w) = cfg_order_api_key (environ w)
  /\ session_headers (current_client w) !! Content_Type
     = Some (lit "application/json").
Proof.
  unfold client_of_config, current_client.
  destruct (client_instance w) as [c|]; [trivial|].
  intros _. cbn. repeat split. apply lookup_insert_eq.
Qed.

(** One step of the invariant: a tool call from a state whose client
    agrees with the environment sends no request or one of the expected
    shape, and leaves such a state. *)
Lemma run_tool_keeps_config (c : tool_call) (w : world) :
  client_of_config (environ w) w ->
  exists sent,
    wire (net (snd (run_tool c w))) = wire (net w) ++ sent
    /\ length sent = (if accepts c then 1 else 0)%nat
    /\ Forall (tool_request (environ w)) sent
    /\ environ (snd (run_tool c w)) = environ w
    /\ client_of_config (environ w) (snd (run_tool c w)).
Proof.
  intros Hinv.
  destruct (current_client_of_config w Hinv) as (Hb & Ht & Hp & Ho & Hct).
  destruct other_headers_differ as (Hcs & Hco).
  destruct (run_tool_uniform c)
    as [(-> & message & Hrej)
       | (-> & endpoint & params & json & Hd & Hpath & Hstrip & _)].
  - pose proof (Hrej w) as E. unfold rejects in E.
    apply (f_equal snd) in E. cbn [snd] in E. rewrite !E.
    exists []. rewrite app_nil_r. auto.
  - pose proof (Hd w) as H. unfold dispatches in H. cbv zeta in H.
    apply (f_equal snd) in H. cbn [snd] in H. rewrite !H.
    destruct (set_api_key_header_fields (current_client w) endpoint)
      as (Hb' & Ht' & Hp' & Ho').
    eexists. split; [reflexivity|]. split; [reflexivity|].
    split; [|split; [reflexivity|]].
    + constructor; [|constructor].
      unfold tool_request, request_sent.
      cbn [req_headers req_url req_endpoint req_timeout].
      rewrite set_api_key_header_other by assumption.
      rewrite set_api_key_header_search, set_api_key_header_order, Hpath.
      cbn [negb andb]. unfold url_of. rewrite Hstrip, Hb', Ht', Hb, Ht, Ho.
      auto.
    + unfold client_of_config.
      cbn [after_request client_instance environ].
      rewrite set_api_key_header_other by assumption.
      rewrite Hb', Ht', Hp', Ho'. auto.
Qed.

(** X15.  In a process whose client, if it exists, was built from the
    environment, any sequence of tool calls sends one request for each
    call that passes validation and none for the others, after the
    requests sent before.  Each of these requests has the JSON content
    type, the URL made of the configured base URL, a slash and the
    endpoint, the configured timeout, the order key under OrderApi-Key
    when one is configured, and no SearchApi-Key header. *)
Theorem tool_requests_follow_config (cs : list tool_call) (w : world) :
  client_of_config (environ w) w ->
  exists sent,
    wire (net (run_tools cs w)) = wire (net w) ++ sent
    /\ length sent = length (filter (fun c => accepts c = true) cs)
    /\ Forall (tool_request (environ w)) sent
    /\ environ (run_tools cs w) = environ w
    /\ client_of_config (environ w) (run_tools cs w).
Proof.
  revert w. induction cs as [|c cs IH]; intros w Hinv.
  - exists []. cbn. rewrite app_nil_r. auto.
  - destruct (run_tool_keeps_config c w Hinv)
      as (sent1 & Hw1 & Hl1 & Hf1 & He1 & Hc1).
    rewrite <- He1 in Hc1.
    destruct (IH _ Hc1) as (sent2 & Hw2 & Hl2 & Hf2 & He2 & Hc2).
    rewrite He1 in *.
    exists (sent1 ++ sent2). cbn [run_tools].
    split; [rewrite Hw2, Hw1, <- app_assoc; reflexivity|].
    split.
    { rewrite length_app, Hl1, Hl2, filter_cons.
      destruct (accepts c); case_decide; try congruence; reflexivity. }
    split; [apply Forall_app; auto|]. auto.
Qed.

Lemma tool_requests_follow_config_witness :
  exists sent,
    wire (net (run_tools [GetCart (lit "abc-123"); GetCart (lit " ");
                          ListOrderHistory None] sample_world))
    = sent
    /\ length sent = 2%nat
    /\ Forall (tool_request sample_config) sent.
Proof.
  destruct (tool_requests_follow_config
              [GetCart (lit "abc-123"); GetCart (lit " ");
               ListOrderHistory None] sample_world I)
    as (sent & Hw & Hl & Hf & _).
  exists sent. split; [exact Hw|]. split; [exact Hl | exact Hf].
Defined.

(** ** Answers of the service *)

(** X16.  The status is checked before the body is read.  When the
    status check of the answer raises, a tool raises the [RuntimeError]
    that wraps that exception, whatever the body holds: a JSON body of an
    error answer is never returned.  When the check passes, a JSON body is
    returned as it is, and a body that is not JSON gives the
    [RuntimeError] that wraps the decoding error. *)
Theorem error_status_hides_body (c : tool_call) (w : world) :
  accepts c = true ->
  exists req,
    wire (net (snd (run_tool c w))) = wire (net w) ++ [req]
    /\ forall r, answer_to req w = Responds r ->
         match raise_for_status r with
         | Some e =>
             fst (run_tool c w)
             = inl (Exc RuntimeError (failure_label c ++ exc_str e) (Some e))
         | None =>
             match body r with
             | inr v => fst (run_tool c w) = inr v
             | inl message =>
                 fst (run_tool c w)
                 = inl (Exc RuntimeError (failure_label c ++ message)
                          (Some (Exc JSONDecodeError message None)))
             end
         end.
Proof.
  intros Hacc.
  destruct (run_tool_uniform c)
    as [(Hrej & _) | (_ & endpoint & params & payload & Hd & _)];
    [congruence|].
  eexists. split; [exact (dispatches_wire _ _ _ _ _ _ _ (Hd w))|].
  intros r Hr. pose proof (Hd w) as H. unfold dispatches in H.
  cbv zeta in H. rewrite H, Hr. cbn [fst checked_json].
  destruct (raise_for_status r) as [e|]; [reflexivity|].
  unfold json. destruct (body r); reflexivity.
Qed.

Lemma error_status_hides_body_witness :
  exists message cause_message,
    fst (run_tool (GetOrder (lit "WEB12345678")) not_found_world)
    = inl (Exc RuntimeError message
             (Some (Exc HTTPError cause_message None))).
Proof.
  destruct (error_status_hides_body (GetOrder (lit "WEB12345678"))
              not_found_world eq_refl) as (req & _ & H).
  specialize (H _ eq_refl). cbv beta in H.
  unfold raise_for_status in H. cbn [status_code] in H.
  change ((400 <=? 404) && (404 <? 500)) with true in H. cbv iota in H.
  do 2 eexists. exact H.
Defined.
